(** * pyannote-audio: the Yaafe feature-extraction bridge and the frame
      timing of the debugging segmentation model

    A shallow embedding of

    - [pyannote/audio/features/with_yaafe.py]: the classes
      [YaafeFeatureExtractor], [YaafeCompound], [YaafeZCR] and [YaafeMFCC];
    - [pyannote/audio/models/segmentation/debug.py]: the frame arithmetic
      of [SimpleSegmentationModel].

    Python floats are binary64 values (Rocq's primitive floats), Python
    integers are [Z], exceptions are values of [exn] carried by the
    [result] monad.  The external collaborators (pysndfile, yaafelib,
    pyannote.database) are fields of a record that every stateful
    operation takes as an argument. *)

From Stdlib Require Import ZArith List String Ascii Bool Floats Lia.
From Stdlib Require Import DecimalString DecimalZ.
Import ListNotations.

Set Warnings "-inexact-float,-register-all".

Local Open Scope string_scope.
Local Open Scope list_scope.
Local Open Scope Z_scope.

Infix "+++" := String.append (at level 60, right associativity).

(* ================================================================== *)
(** ** The Python runtime pieces the two files rely on *)
(* ================================================================== *)

Module Py.

(** The exceptions that the modelled code can raise. *)
Inductive exn : Type :=
| AttributeError
| AssertionError
| IndexError
| KeyError
| ValueError
| OverflowError
| ZeroDivisionError
| PyannoteFeatureExtractionError (cause : string).

Inductive result (A : Type) : Type :=
| Ok (a : A)
| Raise (e : exn).

Arguments Ok {A} a.
Arguments Raise {A} e.

Definition bind {A B : Type} (c : result A) (k : A -> result B) : result B :=
  match c with
  | Ok a => k a
  | Raise e => Raise e
  end.

Definition raises {A : Type} (c : result A) : bool :=
  match c with
  | Ok _ => false
  | Raise _ => true
  end.

(** [bool] is a subclass of [int]: [True] counts as 1, [False] as 0. *)
Definition of_bool (b : bool) : Z := if b then 1 else 0.

(** [float(n)] for an integer [n]: the nearest binary64 value, ties to
    even; an integer too large for a float raises [OverflowError]. *)
Definition float_of_int (n : Z) : result float :=
  let x := SF2Prim (binary_normalize prec emax n 0 false) in
  if is_infinity x then Raise OverflowError else Ok x.

(** [n * x] for an integer [n] and a float [x]: the integer is converted
    first, then the two floats are multiplied. *)
Definition mul_int_float (n : Z) (x : float) : result float :=
  bind (float_of_int n) (fun f => Ok (f * x)%float).

(** [int(x)] for a float [x]: truncation toward zero ([Z.quot]); NaN raises
    [ValueError] and an infinity raises [OverflowError]. *)
Definition int_of_float (x : float) : result Z :=
  match Prim2SF x with
  | S754_zero _ => Ok 0
  | S754_infinity _ => Raise OverflowError
  | S754_nan => Raise ValueError
  | S754_finite s m e =>
      let mant := if s then Z.neg m else Z.pos m in
      if 0 <=? e then Ok (mant * 2 ^ e) else Ok (Z.quot mant (2 ^ (- e)))
  end.

(** [int(n * x)] for an integer [n] and a float [x]. *)
Definition int_mul (n : Z) (x : float) : result Z :=
  bind (mul_int_float n x) int_of_float.


(** [a // b] on integers: floor division, [ZeroDivisionError] when [b] is 0. *)
Definition floordiv (a b : Z) : result Z :=
  if b =? 0 then Raise ZeroDivisionError else Ok (a / b).

(** ["%d" % n]: the decimal digits of [n], with a leading minus sign when
    [n] is negative. *)
Definition fmt_d (n : Z) : string := NilZero.string_of_int (Z.to_int n).

Arguments fmt_d : simpl never.

(** [template % args] for a template whose only conversions are [%d]. The
    templates of the source all come with as many arguments as they have
    conversions. *)
Fixpoint percent (template : string) (args : list Z) : string :=
  match template with
  | EmptyString => EmptyString
  | String c rest =>
      match rest with
      | EmptyString => String c EmptyString
      | String c' rest' =>
          if (Ascii.eqb c "%"%char && Ascii.eqb c' "d"%char)%bool then
            match args with
            | a :: args' => fmt_d a +++ percent rest' args'
            | [] => percent rest' []
            end
          else String c (percent rest args)
      end
  end.

(** [sum(l)]: accumulation from 0, left to right. *)
Definition sum (l : list Z) : Z := fold_left Z.add l 0.

(** [all(l)] *)
Definition all (l : list bool) : bool := forallb (fun b => b) l.

(** The list comprehension [[x for a in l for x in f(a)]] when [f] can
    raise: the first exception, in list order, ends the comprehension. *)
Definition comprehension {A B : Type} (f : A -> result (list B))
  : list A -> result (list B) :=
  fix go (l : list A) : result (list B) :=
    match l with
    | [] => Ok []
    | a :: rest =>
        bind (f a) (fun d => bind (go rest) (fun ds => Ok (d ++ ds)))
    end.

End Py.

Import Py.

Notation "x <- c ;; k" := (bind c (fun x => k))
  (at level 61, c at next level, right associativity).

(* ================================================================== *)
(** ** The numpy operations used by [__call__] *)
(* ================================================================== *)

Module Np.

(** A two-dimensional array, as the list of its rows. *)
Definition matrix : Type := list (list float).

(** What [pysndfile.sndio.read] returns for the samples: a flat array for
    a mono file, an array of shape [(frames, channels)] otherwise. The
    rows of [Array2 c rows] have [c] entries each. *)
Inductive ndarray : Type :=
| Array1 (samples : list float)
| Array2 (channels : nat) (rows : matrix).

(** [if len(y.shape) < 2: y = y.reshape((-1, 1))]: a flat array becomes
    one column; the result is the number of columns and the rows. *)
Definition as_2d (y : ndarray) : nat * matrix :=
  match y with
  | Array1 samples => (1%nat, map (fun x => [x]) samples)
  | Array2 c rows => (c, rows)
  end.

(** [y[:, i]] on an array with [c] columns: indices [0 .. c-1] count from
    the first column, indices [-c .. -1] count from the last one, any
    other index raises [IndexError]. *)
Definition column (c : nat) (rows : matrix) (i : Z) : result (list float) :=
  let n := Z.of_nat c in
  if ((i <? - n) || (n <=? i))%bool then Raise IndexError
  else
    let j := if i <? 0 then i + n else i in
    Ok (map (fun r => nth (Z.to_nat j) r 0%float) rows).

(** [np.hstack(blocks)] for two-dimensional blocks: the rows are joined
    block after block; no block at all, or blocks that differ in their
    number of rows, raise [ValueError]. *)
Fixpoint hstack (blocks : list matrix) : result matrix :=
  match blocks with
  | [] => Raise ValueError
  | b :: rest =>
      match rest with
      | [] => Ok b
      | _ :: _ =>
          r <- hstack rest ;;
          if Nat.eqb (List.length b) (List.length r)
          then Ok (map (fun p => fst p ++ snd p) (combine b r))
          else Raise ValueError
      end
  end.

(** [np.any(np.isnan(data))] *)
Definition any_isnan (data : matrix) : bool :=
  existsb (fun row => existsb PrimFloat.is_nan row) data.

End Np.

Import Np.

(* ================================================================== *)
(** ** Reading a parameter string back *)
(* ================================================================== *)

(** The recipes hand yaafelib strings such as
    [ZCR blockSize=400 stepSize=160]: words separated by one space, each
    parameter a word [key=value]. [param] reads the integer a recipe string
    gives to a key; it is how the statements below say which number is
    embedded in a string. *)
Module Yaafe.

Definition push (c : ascii) (ws : list string) : list string :=
  match ws with
  | [] => [String c EmptyString]
  | w :: rest => String c w :: rest
  end.

Fixpoint words (s : string) : list string :=
  match s with
  | EmptyString => [EmptyString]
  | String c rest =>
      if Ascii.eqb c " "%char then EmptyString :: words rest
      else push c (words rest)
  end.

Fixpoint strip_prefix (p s : string) : option string :=
  match p with
  | EmptyString => Some s
  | String a p' =>
      match s with
      | EmptyString => None
      | String b s' => if Ascii.eqb a b then strip_prefix p' s' else None
      end
  end.

Fixpoint lookup_param (key : string) (ws : list string) : option string :=
  match ws with
  | [] => None
  | w :: rest =>
      match strip_prefix (key +++ "=") w with
      | Some v => Some v
      | None => lookup_param key rest
      end
  end.

Definition param (key recipe : string) : option Z :=
  match lookup_param key (words recipe) with
  | Some v => option_map Z.of_int (NilZero.int_of_string v)
  | None => None
  end.

(** A string without any space is one word. *)
Fixpoint no_space (s : string) : bool :=
  match s with
  | EmptyString => true
  | String c rest => (negb (Ascii.eqb c " "%char) && no_space rest)%bool
  end.

(** What an engine is loaded with: the sample rate of the feature plan and
    the lines [name: recipe] added to it, in order. *)
Definition dataflow : Type := (Z * list string)%type.

End Yaafe.

Import Yaafe.

(* ================================================================== *)
(** ** [pyannote/audio/features/with_yaafe.py] *)
(* ================================================================== *)

Module WithYaafe.

(** [pyannote.core.SlidingWindow] and [pyannote.core.SlidingWindowFeature],
    as the plain values the source builds. *)
Record SlidingWindow : Type := mkSlidingWindow {
  sw_start : float;
  sw_duration : float;
  sw_step : float
}.

Record SlidingWindowFeature : Type := mkSlidingWindowFeature {
  data : matrix;
  sliding_window : SlidingWindow
}.

(** The attributes [YaafeFeatureExtractor.__init__] and [__call__] put on
    an instance. [sample_rate_] is [None] as long as the attribute does not
    exist; [engine_] is the data flow the instance's engine was last loaded
    with, if any. *)
Record attrs : Type := mkAttrs {
  duration : float;
  step : float;
  sliding_window_ : SlidingWindow;
  engine_ : option dataflow;
  sample_rate_ : option Z
}.

(** The three concrete classes (the base class itself has no
    [definition] and its [dimension] only raises [NotImplementedError]).
    A compound holds its children; it only ever reads them (their
    [duration], [step], [dimension()] and [definition()]) and never writes
    to them, so each child is carried with the attributes it has when the
    compound is used. *)
Inductive YaafeFeatureExtractor : Type :=
| YaafeZCR (self : attrs)
| YaafeMFCC (self : attrs) (e : bool) (coefs : Z) (De DDe D DD : bool)
| YaafeCompound (self : attrs) (extractors : list YaafeFeatureExtractor).

Definition attrs_of (x : YaafeFeatureExtractor) : attrs :=
  match x with
  | YaafeZCR self => self
  | YaafeMFCC self _ _ _ _ _ _ => self
  | YaafeCompound self _ => self
  end.

Definition with_attrs (x : YaafeFeatureExtractor) (a : attrs)
  : YaafeFeatureExtractor :=
  match x with
  | YaafeZCR _ => YaafeZCR a
  | YaafeMFCC _ e coefs De DDe D DD => YaafeMFCC a e coefs De DDe D DD
  | YaafeCompound _ extractors => YaafeCompound a extractors
  end.

(** The two classes that are not compounds. *)
Definition is_leaf (x : YaafeFeatureExtractor) : bool :=
  match x with
  | YaafeCompound _ _ => false
  | _ => true
  end.

(** [self.sample_rate_]: reading the attribute before it exists raises. *)
Definition get_sample_rate_ (self : attrs) : result Z :=
  match sample_rate_ self with
  | Some sr => Ok sr
  | None => Raise AttributeError
  end.

(** *** Constructors *)

(** Modelled from the spec: the constructor of [pyannote.core.SlidingWindow],
    which lines 64-66 call and which is not among the sources. The
    specification gives the window a construction-time validation,
    [duration > 0] and [step > 0]; pyannote.core tests [duration <= 0],
    then [step <= 0], and raises [ValueError] (a NaN passes both tests). *)
Definition SlidingWindow__init__ (start duration step : float)
  : result SlidingWindow :=
  if PrimFloat.leb duration 0%float then Raise ValueError
  else if PrimFloat.leb step 0%float then Raise ValueError
  else Ok (mkSlidingWindow start duration step).

(** The attributes of an instance that the base constructor has built:
    what lines 60-68 assign when the sliding window is accepted. *)
Definition initial_attrs (duration step : float) : attrs :=
  {| duration := duration;
     step := step;
     sliding_window_ := mkSlidingWindow (-0.5 * duration)%float duration step;
     engine_ := None;
     sample_rate_ := None |}.

(** [YaafeFeatureExtractor.__init__(self, duration=0.025, step=0.010)]: no
    instance is built when the sliding window raises. *)
Definition YaafeFeatureExtractor__init__ (duration step : float)
  : result attrs :=
  let start := (-0.5 * duration)%float in
  sliding_window_ <- SlidingWindow__init__ start duration step ;;
  Ok {| duration := duration;
        step := step;
        sliding_window_ := sliding_window_;
        engine_ := None;
        sample_rate_ := None |}.

Definition default_duration : float := 0.025%float.
Definition default_step : float := 0.010%float.

(** [YaafeZCR(duration, step)] *)
Definition YaafeZCR__init__ (duration step : float)
  : result YaafeFeatureExtractor :=
  self <- YaafeFeatureExtractor__init__ duration step ;;
  Ok (YaafeZCR self).

(** [YaafeMFCC(duration, step, e, coefs, De, DDe, D, DD)]: the six
    parameters are stored, then the base constructor runs. *)
Definition YaafeMFCC__init__ (duration step : float)
  (e : bool) (coefs : Z) (De DDe D DD : bool) : result YaafeFeatureExtractor :=
  self <- YaafeFeatureExtractor__init__ duration step ;;
  Ok (YaafeMFCC self e coefs De DDe D DD).

(** [YaafeCompound(extractors, duration, step)]: both assertions compare
    the children with the constructor's own [duration] and [step]
    arguments, using float equality; the base constructor runs after
    them. *)
Definition YaafeCompound__init__ (extractors : list YaafeFeatureExtractor)
  (duration step : float) : result YaafeFeatureExtractor :=
  if negb (all (map (fun e => PrimFloat.eqb (WithYaafe.duration (attrs_of e)) duration)
                    extractors))
  then Raise AssertionError
  else if negb (all (map (fun e => PrimFloat.eqb (WithYaafe.step (attrs_of e)) step)
                         extractors))
  then Raise AssertionError
  else
    self <- YaafeFeatureExtractor__init__ duration step ;;
    Ok (YaafeCompound self extractors).

(** *** [dimension] *)

Fixpoint dimension (x : YaafeFeatureExtractor) : Z :=
  match x with
  | YaafeZCR _ => 1
  | YaafeMFCC _ e coefs De DDe D DD =>
      let n_features := 0 in
      let n_features := n_features + of_bool e in
      let n_features := n_features + of_bool De in
      let n_features := n_features + of_bool DDe in
      let n_features := n_features + coefs in
      let n_features := n_features + coefs * of_bool D in
      let n_features := n_features + coefs * of_bool DD in
      n_features
  | YaafeCompound _ extractors => sum (map dimension extractors)
  end.

(** *** [definition] *)

Definition MFCC_template : string :=
  "MFCC CepsIgnoreFirstCoeff=%d CepsNbCoeffs=%d blockSize=%d stepSize=%d".

Fixpoint definition (x : YaafeFeatureExtractor)
  : result (list (string * string)) :=
  match x with
  | YaafeZCR self =>
      sr <- get_sample_rate_ self ;;
      blockSize <- int_mul sr (duration self) ;;
      sr' <- get_sample_rate_ self ;;
      stepSize <- int_mul sr' (step self) ;;
      let d := [("zcr",
                 percent "ZCR blockSize=%d stepSize=%d" [blockSize; stepSize])] in
      Ok d
  | YaafeMFCC self e coefs De DDe D DD =>
      sr <- get_sample_rate_ self ;;
      blockSize <- int_mul sr (duration self) ;;
      sr' <- get_sample_rate_ self ;;
      stepSize <- int_mul sr' (step self) ;;
      let d := [] in
      (* --- coefficients: 0 if energy is kept, 1 if energy is removed *)
      let d := d ++ [("mfcc",
                      percent MFCC_template
                        [if e then 0 else 1;
                         coefs + of_bool e * 1;
                         blockSize; stepSize])] in
      (* --- 1st order derivatives *)
      let d := if (De || D)%bool
               then d ++ [("mfcc_d",
                           percent (MFCC_template +++ " > Derivate DOrder=1")
                             [if De then 0 else 1;
                              of_bool D * coefs + of_bool De * 1;
                              blockSize; stepSize])]
               else d in
      (* --- 2nd order derivatives *)
      let d := if (DDe || DD)%bool
               then d ++ [("mfcc_dd",
                           percent (MFCC_template +++ " > Derivate DOrder=2")
                             [if DDe then 0 else 1;
                              of_bool DD * coefs + of_bool DDe * 1;
                              blockSize; stepSize])]
               else d in
      Ok d
  | YaafeCompound _ extractors => comprehension definition extractors
  end.

(** *** [__hash__] *)

(** What a hash is computed from: the identity of the object (the default
    [object.__hash__], which the two leaf classes inherit) or a tuple of
    instructions ([YaafeCompound.__hash__]). *)
Inductive hash_value : Type :=
| HashOfIdentity
| HashOfTuple (t : list (string * string)).

Definition __hash__ (x : YaafeFeatureExtractor) : result hash_value :=
  match x with
  | YaafeCompound _ _ => d <- definition x ;; Ok (HashOfTuple d)
  | _ => Ok HashOfIdentity
  end.

(** *** [__call__] *)

(** The [item] dictionary: the keys the source reads. A key that is absent
    is [None]. *)
Record item : Type := mkItem {
  wav : option string;
  channel : option Z;
  uri : string
}.

(** What [pysndfile.sndio.read(wav)] does: it raises [IOError], or returns
    the samples and the sample rate (the encoding is not used). *)
Inductive read_result : Type :=
| ReadIOError (e : string)
| ReadOk (y : ndarray) (sample_rate : Z).

(** The collaborators of [__call__]:
    - [sndio_read]: [pysndfile.sndio.read];
    - [addFeature sr plan line]: the truth value of
      [feature_plan.addFeature(line)] on a plan of sample rate [sr] that
      already holds the lines [plan];
    - [processAudio flow y]: the dictionary [engine_.processAudio(y)] of an
      engine loaded with [flow], as a lookup by feature name;
    - [get_unique_identifier]: [pyannote.database.util.get_unique_identifier]. *)
Record collaborators : Type := mkCollaborators {
  sndio_read : string -> read_result;
  addFeature : Z -> list string -> string -> bool;
  processAudio : option dataflow -> list float -> string -> option matrix;
  get_unique_identifier : item -> string
}.

(** The character [chr(34)], which the warning puts around the identifier. *)
Definition dquote : string := String (ascii_of_nat 34) EmptyString.

(** ['Features extracted from {uri} contain NaNs.'.format(uri=uri)], with
    the identifier between double quotes. *)
Definition nan_message (uri : string) : string :=
  "Features extracted from " +++ dquote +++ uri +++ dquote +++ " contain NaNs.".

Definition set_sample_rate_ (a : attrs) (sr : Z) : attrs :=
  mkAttrs (duration a) (step a) (sliding_window_ a) (engine_ a) (Some sr).

Definition set_engine_ (a : attrs) (flow : dataflow) : attrs :=
  mkAttrs (duration a) (step a) (sliding_window_ a) (Some flow) (sample_rate_ a).

(** [not hasattr(self, 'sample_rate_') or self.sample_rate_ != sample_rate] *)
Definition sample_rate_changed (a : attrs) (sample_rate : Z) : bool :=
  match sample_rate_ a with
  | None => true
  | Some sr => negb (sr =? sample_rate)
  end.

(** [for name in names: features[name]], a missing key raising [KeyError]. *)
Fixpoint lookup_all (features : string -> option matrix) (names : list string)
  : result (list matrix) :=
  match names with
  | [] => Ok []
  | name :: rest =>
      match features name with
      | None => Raise KeyError
      | Some block => blocks <- lookup_all features rest ;; Ok (block :: blocks)
      end
  end.

(** [item.get('channel', 1)] *)
Definition channel_of (it : item) : Z :=
  match channel it with
  | Some c => c
  | None => 1
  end.

(** Lines 106-114: reshape a flat signal to one column, then take the
    column [channel - 1] of the item's 1-based [channel] (default 1). *)
Definition select_channel (y : ndarray) (it : item) : result (list float) :=
  let (c, rows) := as_2d y in
  let channel := channel_of it in
  column c rows (channel - 1).

Section Call.

Variable W : collaborators.

(** The loop of lines 100-102: every line must be accepted by the plan. *)
Fixpoint add_features (sample_rate : Z) (plan : list string)
  (defs : list (string * string)) : result (list string) :=
  match defs with
  | [] => Ok plan
  | (name, recipe) :: rest =>
      let line := name +++ ": " +++ recipe in
      if addFeature W sample_rate plan line
      then add_features sample_rate (plan ++ [line]) rest
      else Raise AssertionError
  end.

(** Lines 96-104: when the sample rate is new, store it, rebuild the
    feature plan from [self.definition()] and load the engine. The
    instance is returned as the step leaves it, also when it raises. *)
Definition update_data_flow (x : YaafeFeatureExtractor) (sample_rate : Z)
  : YaafeFeatureExtractor * result unit :=
  if sample_rate_changed (attrs_of x) sample_rate then
    let x1 := with_attrs x (set_sample_rate_ (attrs_of x) sample_rate) in
    match definition x1 with
    | Raise e => (x1, Raise e)
    | Ok defs =>
        match add_features sample_rate [] defs with
        | Raise e => (x1, Raise e)
        | Ok lines =>
            (with_attrs x1 (set_engine_ (attrs_of x1) (sample_rate, lines)), Ok tt)
        end
    end
  else (x, Ok tt).

(** Lines 89-118: from the item to the concatenated feature data. *)
Definition features_data (x : YaafeFeatureExtractor) (it : item)
  : YaafeFeatureExtractor * result matrix :=
  match wav it with
  | None => (x, Raise KeyError)
  | Some path =>
      match sndio_read W path with
      | ReadIOError e => (x, Raise (PyannoteFeatureExtractionError e))
      | ReadOk y sample_rate =>
          let (x1, updated) := update_data_flow x sample_rate in
          (x1,
           _ <- updated ;;
           y1 <- select_channel y it ;;
           let features := processAudio W (engine_ (attrs_of x1)) y1 in
           defs <- definition x1 ;;
           blocks <- lookup_all features (map fst defs) ;;
           hstack blocks)
      end
  end.

(** [__call__(self, item)]: the instance after the call, the warnings the
    call emitted, and what it returned or raised. *)
Definition __call__ (x : YaafeFeatureExtractor) (it : item)
  : YaafeFeatureExtractor * list string * result SlidingWindowFeature :=
  let (x1, r) := features_data x it in
  match r with
  | Raise e => (x1, [], Raise e)
  | Ok data =>
      let warnings :=
        if any_isnan data
        then [nan_message (get_unique_identifier W it)]
        else [] in
      (x1, warnings,
       Ok (mkSlidingWindowFeature data (sliding_window_ (attrs_of x1))))
  end.

End Call.

(** *** Vocabulary for the statements *)

(** The feature names of the instruction list, when it can be built. *)
Definition names (x : YaafeFeatureExtractor) : list string :=
  match definition x with
  | Ok d => map fst d
  | Raise _ => []
  end.

(** Two lists of names that share no name. *)
Definition disjoint (l1 l2 : list string) : Prop :=
  forall n, In n l1 -> ~ In n l2.

(** [x] builds a non-empty instruction list, each parameter string of which
    gives [blockSize] and [stepSize] the two given numbers. *)
Definition embeds_sizes (x : YaafeFeatureExtractor) (blockSize stepSize : Z)
  : Prop :=
  exists d,
    definition x = Ok d /\ d <> []
    /\ forall name recipe, In (name, recipe) d ->
         param "blockSize" recipe = Some blockSize
         /\ param "stepSize" recipe = Some stepSize.

(** The errors of the steps that follow the reading of the file. *)
Definition plain_error (e : exn) : Prop :=
  e = AttributeError \/ e = ValueError \/ e = OverflowError
  \/ e = AssertionError \/ e = IndexError \/ e = KeyError.

(** The lines [name: recipe] that a feature plan is given for a list of
    instructions (the argument of [addFeature] in lines 100-102). *)
Definition plan_lines (defs : list (string * string)) : list string :=
  map (fun d => fst d +++ ": " +++ snd d) defs.

(** The engine of [x] holds the data flow of the instructions that [x]
    builds at the sample rate it stores. *)
Definition loaded_for (x : YaafeFeatureExtractor) : Prop :=
  exists sr defs,
    sample_rate_ (attrs_of x) = Some sr
    /\ definition x = Ok defs
    /\ engine_ (attrs_of x) = Some (sr, plan_lines defs).

(** The instance after one call per item of [items], in order, whatever
    each call returned or raised. *)
Definition calls (W : collaborators) (x : YaafeFeatureExtractor)
  (items : list item) : YaafeFeatureExtractor :=
  fold_left (fun x it => fst (fst (__call__ W x it))) items x.

End WithYaafe.

(* ================================================================== *)
(** ** [pyannote/audio/models/segmentation/debug.py] *)
(* ================================================================== *)

Module Debug.

(** The fields of [self.mfcc.MelSpectrogram.spectrogram] (a torchaudio
    [Spectrogram]) that the model reads. torchaudio's defaults, which
    [SimpleSegmentationModel.__init__] keeps, are [n_fft = 400],
    [win_length = n_fft], [hop_length = win_length // 2], [center = True]. *)
Record Spectrogram : Type := mkSpectrogram {
  n_fft : Z;
  win_length : Z;
  hop_length : Z;
  center : bool
}.

(** [num_frames(self, num_samples)]; the [lru_cache] only stores results
    of this pure function, and [int] of an integer is that integer. *)
Definition num_frames (spectrogram : Spectrogram) (num_samples : Z)
  : result Z :=
  if center spectrogram
  then q <- floordiv num_samples (hop_length spectrogram) ;; Ok (1 + q)
  else q <- floordiv (num_samples - n_fft spectrogram)
                     (hop_length spectrogram) ;;
       Ok (1 + q).

(** [receptive_field_size(self, num_frames=1)] *)
Definition receptive_field_size (spectrogram : Spectrogram) (num_frames : Z)
  : Z :=
  if center spectrogram
  then (num_frames - 1) * hop_length spectrogram
  else (num_frames - 1) * hop_length spectrogram + n_fft spectrogram.

End Debug.

(* ================================================================== *)
(** ** Notions of the specification *)
(* ================================================================== *)

Module SpecWords.

(** The specification's [round(x)]: the integer nearest to [x], a tie
    going to the even neighbour. *)
Definition spec_round (x : float) : option Z :=
  match Prim2SF x with
  | S754_zero _ => Some 0
  | S754_finite s m e =>
      let n :=
        if 0 <=? e then Z.pos m * 2 ^ e
        else
          let k := 2 ^ (- e) in
          let q := Z.pos m / k in
          let r := Z.pos m mod k in
          if 2 * r <? k then q
          else if k <? 2 * r then q + 1
          else if Z.even q then q else q + 1 in
      Some (if s then - n else n)
  | _ => None
  end.


(** The specification's block (or step) size: [round(sample_rate * t)]. *)
Definition spec_size (sample_rate : Z) (t : float) : option Z :=
  match mul_int_float sample_rate t with
  | Ok p => spec_round p
  | Raise _ => None
  end.

End SpecWords.

(* ================================================================== *)
(** ** Concrete instances, items and collaborators *)
(* ================================================================== *)

Module Examples.

Import WithYaafe.

(** The instances that [YaafeZCR()] and [YaafeMFCC()] build with the
    default arguments. *)
Definition zcr : YaafeFeatureExtractor :=
  YaafeZCR (initial_attrs default_duration default_step).

Definition mfcc : YaafeFeatureExtractor :=
  YaafeMFCC (initial_attrs default_duration default_step)
    true 11 false false false false.

(** [x] once one of its calls has read a file of sample rate [sr]. *)
Definition seen (x : YaafeFeatureExtractor) (sr : Z) : YaafeFeatureExtractor :=
  with_attrs x (set_sample_rate_ (attrs_of x) sr).

(** A stereo file and a mono file of two frames each. *)
Definition stereo : ndarray :=
  Array2 2 [[1%float; 2%float]; [3%float; 4%float]].


(** Every path reads as [y] at 16 kHz; the engine accepts every feature
    and hands the signal it is given back as a one-column block named
    [zcr]. *)
Definition echo_world (y : ndarray) : collaborators :=
  {| sndio_read := fun _ => ReadOk y 16000;
     addFeature := fun _ _ _ => true;
     processAudio := fun _ y name =>
       if String.eqb name "zcr" then Some (map (fun v => [v]) y) else None;
     get_unique_identifier := uri |}.

(** A mono file of two frames and an engine whose only output value is NaN. *)
Definition nan_world : collaborators :=
  {| sndio_read := fun _ => ReadOk (Array1 [0%float; 0%float]) 16000;
     addFeature := fun _ _ _ => true;
     processAudio := fun _ _ _ => Some [[nan]];
     get_unique_identifier := uri |}.

(** The stereo file again, with a feature plan that refuses every
    feature. *)
Definition refusing_world : collaborators :=
  {| sndio_read := fun _ => ReadOk stereo 16000;
     addFeature := fun _ _ _ => false;
     processAudio := fun _ y name =>
       if String.eqb name "zcr" then Some (map (fun v => [v]) y) else None;
     get_unique_identifier := uri |}.

(** No file can be read. *)
Definition unreadable_world : collaborators :=
  {| sndio_read := fun _ => ReadIOError "no such file";
     addFeature := fun _ _ _ => true;
     processAudio := fun _ _ _ => None;
     get_unique_identifier := uri |}.

Definition file1 (channel : option Z) : item :=
  {| wav := Some "file1.wav"; channel := channel; uri := "file1" |}.

(** Two recipes that agree on [(0.05, 0.02)]: the instances that
    [YaafeZCR(0.05, 0.02)] and [YaafeMFCC(0.05, 0.02)] build. *)
Definition zcr_50ms : YaafeFeatureExtractor :=
  YaafeZCR (initial_attrs 0.05%float 0.02%float).

Definition mfcc_50ms : YaafeFeatureExtractor :=
  YaafeMFCC (initial_attrs 0.05%float 0.02%float)
    true 11 false false false false.

End Examples.

(* ================================================================== *)
(** * Properties *)
(* ================================================================== *)

Import WithYaafe.

(** ** Constructors *)

Section Constructors.

(** The base constructor builds an instance exactly for a duration and a
    step that the sliding window accepts, and then builds
    [initial_attrs]. *)
Lemma base_constructor (d s : float) :
  YaafeFeatureExtractor__init__ d s =
    if (PrimFloat.leb d 0%float || PrimFloat.leb s 0%float)%bool
    then Raise ValueError
    else Ok (initial_attrs d s).
Proof.
  unfold YaafeFeatureExtractor__init__, SlidingWindow__init__, initial_attrs.
  destruct (PrimFloat.leb d 0%float); [reflexivity|].
  destruct (PrimFloat.leb s 0%float); reflexivity.
Qed.

Lemma base_constructor_inv (d s : float) (a : attrs) :
  YaafeFeatureExtractor__init__ d s = Ok a -> a = initial_attrs d s.
Proof.
  rewrite base_constructor. destruct (_ || _)%bool; [discriminate|].
  now intros [= <-].
Qed.

(** The instances of [Examples] are what the constructors build. *)
Lemma examples_are_constructed :
  YaafeZCR__init__ default_duration default_step = Ok Examples.zcr
  /\ YaafeMFCC__init__ default_duration default_step
       true 11 false false false false = Ok Examples.mfcc
  /\ YaafeZCR__init__ 0.05%float 0.02%float = Ok Examples.zcr_50ms
  /\ YaafeMFCC__init__ 0.05%float 0.02%float
       true 11 false false false false = Ok Examples.mfcc_50ms.
Proof.
  repeat split.
Qed.

End Constructors.

(** ** Decimal printing and the reading of parameter strings *)

Section Strings.

Lemma append_empty_r (s : string) : s +++ EmptyString = s.
Proof.
  induction s as [|c s IH]; simpl; [reflexivity | now rewrite IH].
Qed.

Lemma words_no_space (a : string) :
  no_space a = true -> words a = [a].
Proof.
  induction a as [|c a IH]; simpl; intros H; [reflexivity|].
  apply andb_prop in H as [Hc Ha].
  apply negb_true_iff in Hc. rewrite Hc, (IH Ha). reflexivity.
Qed.

Lemma words_app_space (a rest : string) :
  no_space a = true ->
  words (a +++ String " "%char rest) = a :: words rest.
Proof.
  induction a as [|c a IH]; simpl; intros H; [reflexivity|].
  apply andb_prop in H as [Hc Ha].
  apply negb_true_iff in Hc. rewrite Hc, (IH Ha). reflexivity.
Qed.

Lemma no_space_uint (d : Decimal.uint) :
  no_space (NilEmpty.string_of_uint d) = true.
Proof.
  induction d; simpl; auto.
Qed.

Lemma no_space_fmt_d (n : Z) : no_space (fmt_d n) = true.
Proof.
  unfold fmt_d, NilZero.string_of_int, NilZero.string_of_uint.
  destruct (Z.to_int n) as [d|d]; destruct d; simpl;
    try reflexivity; apply no_space_uint.
Qed.

Lemma to_int_not_nil (n : Z) :
  Z.to_int n <> Decimal.Pos Decimal.Nil /\ Z.to_int n <> Decimal.Neg Decimal.Nil.
Proof.
  destruct n as [|p|p]; simpl; split; try discriminate;
    intros H; injection H as H; now apply DecimalPos.Unsigned.to_uint_nonnil in H.
Qed.

Lemma read_fmt_d (n : Z) :
  option_map Z.of_int (NilZero.int_of_string (fmt_d n)) = Some n.
Proof.
  unfold fmt_d.
  destruct (to_int_not_nil n) as [Hp Hn].
  rewrite NilZero.isi by assumption.
  simpl. now rewrite DecimalZ.of_to.
Qed.

End Strings.

Ltac split_words :=
  repeat (cbn [words push Ascii.eqb Bool.eqb percent String.append andb];
          first [ rewrite words_app_space by apply no_space_fmt_d
                | rewrite words_no_space by apply no_space_fmt_d ]);
  cbn [words push Ascii.eqb Bool.eqb].

Ltac read_param :=
  unfold param, MFCC_template;
  cbn [percent String.append Ascii.eqb Bool.eqb andb];
  rewrite ?append_empty_r;
  split_words;
  cbn [lookup_param strip_prefix String.append Ascii.eqb Bool.eqb];
  first [ apply read_fmt_d | reflexivity ].

Section Recipes.

Lemma zcr_params (b s : Z) :
  let recipe := percent "ZCR blockSize=%d stepSize=%d" [b; s] in
  param "blockSize" recipe = Some b /\ param "stepSize" recipe = Some s.
Proof.
  split; read_param.
Qed.

Lemma mfcc_params (a n b s : Z) :
  let recipe := percent MFCC_template [a; n; b; s] in
  param "CepsIgnoreFirstCoeff" recipe = Some a
  /\ param "CepsNbCoeffs" recipe = Some n
  /\ param "blockSize" recipe = Some b
  /\ param "stepSize" recipe = Some s.
Proof.
  repeat split; read_param.
Qed.

Lemma mfcc_d_params (a n b s : Z) :
  let recipe := percent (MFCC_template +++ " > Derivate DOrder=1") [a; n; b; s] in
  param "CepsIgnoreFirstCoeff" recipe = Some a
  /\ param "CepsNbCoeffs" recipe = Some n
  /\ param "blockSize" recipe = Some b
  /\ param "stepSize" recipe = Some s
  /\ param "DOrder" recipe = Some 1.
Proof.
  repeat split; read_param.
Qed.

Lemma mfcc_dd_params (a n b s : Z) :
  let recipe := percent (MFCC_template +++ " > Derivate DOrder=2") [a; n; b; s] in
  param "CepsIgnoreFirstCoeff" recipe = Some a
  /\ param "CepsNbCoeffs" recipe = Some n
  /\ param "blockSize" recipe = Some b
  /\ param "stepSize" recipe = Some s
  /\ param "DOrder" recipe = Some 2.
Proof.
  repeat split; read_param.
Qed.

End Recipes.

(** ** [definition] of the two leaf classes, once the sample rate is known *)

Section LeafDefinition.

Variables (self : attrs) (sr blockSize stepSize : Z).
Hypothesis Hsr : sample_rate_ self = Some sr.
Hypothesis Hblock : int_mul sr (duration self) = Ok blockSize.
Hypothesis Hstep : int_mul sr (step self) = Ok stepSize.

Lemma definition_zcr :
  definition (YaafeZCR self) =
  Ok [("zcr", percent "ZCR blockSize=%d stepSize=%d" [blockSize; stepSize])].
Proof.
  cbn [definition]. unfold get_sample_rate_. rewrite Hsr.
  cbn [bind]. rewrite Hblock. cbn [bind]. rewrite Hstep. reflexivity.
Qed.

Lemma definition_mfcc (e : bool) (coefs : Z) (De DDe D DD : bool) :
  definition (YaafeMFCC self e coefs De DDe D DD) =
  Ok ([("mfcc",
        percent MFCC_template
          [if e then 0 else 1; coefs + of_bool e * 1; blockSize; stepSize])]
      ++ (if (De || D)%bool
          then [("mfcc_d",
                 percent (MFCC_template +++ " > Derivate DOrder=1")
                   [if De then 0 else 1; of_bool D * coefs + of_bool De * 1;
                    blockSize; stepSize])]
          else [])
      ++ (if (DDe || DD)%bool
          then [("mfcc_dd",
                 percent (MFCC_template +++ " > Derivate DOrder=2")
                   [if DDe then 0 else 1; of_bool DD * coefs + of_bool DDe * 1;
                    blockSize; stepSize])]
          else [])).
Proof.
  cbn [definition]. unfold get_sample_rate_. rewrite Hsr.
  cbn [bind]. rewrite Hblock. cbn [bind]. rewrite Hstep. cbn [bind].
  destruct (De || D)%bool, (DDe || DD)%bool; reflexivity.
Qed.

End LeafDefinition.

(** A leaf whose sample rate was never observed cannot build its
    instructions. *)
Lemma definition_leaf_unset (x : YaafeFeatureExtractor) :
  is_leaf x = true ->
  sample_rate_ (attrs_of x) = None ->
  definition x = Raise AttributeError.
Proof.
  destruct x as [self|self e coefs De DDe D DD|self es]; cbn [is_leaf attrs_of];
    intros Hl Hs; try discriminate;
    cbn [definition]; unfold get_sample_rate_; rewrite Hs; reflexivity.
Qed.

(** ** Frame timing of the debugging model *)

(** C9. With a hop length other than 0 and the window length equal to the
    FFT size (torchaudio's default, which the model keeps),
    [num_frames(num_samples)] is [1 + num_samples // hop_length] for a
    centered transform and [1 + (num_samples - win_length) // hop_length]
    otherwise, for every non-negative number of samples; for a centered
    transform with a positive hop length the result [k] is the one with
    [(k-1) * hop <= num_samples < k * hop]; and for a centered transform of
    hop length 160, [num_frames] is 1 at 0, 2 at 160 and 1 at 159. *)
Theorem num_frames_formula :
  forall (sp : Debug.Spectrogram) (num_samples : Z),
    0 <= num_samples ->
    Debug.hop_length sp <> 0 ->
    Debug.win_length sp = Debug.n_fft sp ->
    Debug.num_frames sp num_samples =
      Ok (if Debug.center sp
          then 1 + num_samples / Debug.hop_length sp
          else 1 + (num_samples - Debug.win_length sp) / Debug.hop_length sp)
    /\ (Debug.center sp = true -> 0 < Debug.hop_length sp ->
        exists k, Debug.num_frames sp num_samples = Ok k
                  /\ (k - 1) * Debug.hop_length sp <= num_samples
                     < k * Debug.hop_length sp)
    /\ (Debug.center sp = true -> Debug.hop_length sp = 160 ->
        Debug.num_frames sp 0 = Ok 1
        /\ Debug.num_frames sp 160 = Ok 2
        /\ Debug.num_frames sp 159 = Ok 1).
Proof.
  intros sp n Hn Hhop Hwin.
  unfold Debug.num_frames, floordiv.
  apply Z.eqb_neq in Hhop. rewrite Hhop, Hwin.
  split; [|split].
  - destruct (Debug.center sp); reflexivity.
  - intros Hc Hpos. rewrite Hc. cbn [bind].
    exists (1 + n / Debug.hop_length sp). split; [reflexivity|].
    pose proof (Z.mul_div_le n _ Hpos).
    pose proof (Z.mul_succ_div_gt n _ Hpos).
    nia.
  - intros Hc H160. rewrite Hc, H160. repeat split.
Qed.

Lemma num_frames_formula_witness :
  Debug.num_frames (Debug.mkSpectrogram 400 400 160 true) 159 = Ok 1
  /\ Debug.num_frames (Debug.mkSpectrogram 400 400 200 false) 16000 = Ok 79.
Proof.
  split.
  - apply (num_frames_formula (Debug.mkSpectrogram 400 400 160 true) 159);
      [lia | discriminate | reflexivity | reflexivity | reflexivity].
  - exact (proj1 (num_frames_formula (Debug.mkSpectrogram 400 400 200 false) 16000
                    ltac:(lia) ltac:(discriminate) eq_refl)).
Defined.

(** ** The MFCC recipe *)

(** C5. The dimension of an MFCC recipe is
    [e + De + DDe + coefs * (1 + D + DD)], booleans counted as 0 or 1,
    whatever the attributes of the instance (its sample rate included). With
    [coefs=11], [e=True] and no derivative, the dimension is 12 and, once a
    sample rate is known and the block and step sizes are computed, the
    instruction list has exactly one entry, whose parameter string gives
    [CepsIgnoreFirstCoeff=0] and [CepsNbCoeffs=12]. *)
Theorem mfcc_dimension :
  (forall (self : attrs) (e : bool) (coefs : Z) (De DDe D DD : bool),
      dimension (YaafeMFCC self e coefs De DDe D DD) =
      of_bool e + of_bool De + of_bool DDe
      + coefs * (1 + of_bool D + of_bool DD))
  /\ (forall (self : attrs) (sr blockSize stepSize : Z),
        sample_rate_ self = Some sr ->
        int_mul sr (duration self) = Ok blockSize ->
        int_mul sr (step self) = Ok stepSize ->
        dimension (YaafeMFCC self true 11 false false false false) = 12
        /\ exists recipe,
            definition (YaafeMFCC self true 11 false false false false) =
              Ok [("mfcc", recipe)]
            /\ param "CepsIgnoreFirstCoeff" recipe = Some 0
            /\ param "CepsNbCoeffs" recipe = Some 12).
Proof.
  split.
  - intros self e coefs De DDe D DD. cbn [dimension]. cbv zeta. ring.
  - intros self sr b s Hsr Hb Hs. split; [reflexivity|].
    rewrite (definition_mfcc self sr b s Hsr Hb Hs).
    eexists. split; [reflexivity|].
    destruct (mfcc_params 0 12 b s) as (Ha & Hn & _).
    split; assumption.
Qed.

Lemma mfcc_dimension_witness :
  dimension Examples.mfcc = 12
  /\ exists recipe,
      definition (Examples.seen Examples.mfcc 16000) = Ok [("mfcc", recipe)]
      /\ param "CepsIgnoreFirstCoeff" recipe = Some 0
      /\ param "CepsNbCoeffs" recipe = Some 12.
Proof.
  exact (proj2 mfcc_dimension
           (set_sample_rate_ (attrs_of Examples.mfcc) 16000) 16000 400 160
           eq_refl eq_refl eq_refl).
Defined.

Ltac emitted_iff :=
  split;
  [ intros [r Hin]; first
      [ reflexivity
      | exfalso; cbn [In] in Hin;
        repeat (destruct Hin as [Hin|Hin]; [discriminate Hin|]); exact Hin ]
  | intros Hflag; first
      [ discriminate Hflag
      | eexists; cbn [In]; first
          [ left; reflexivity
          | right; left; reflexivity
          | right; right; left; reflexivity ] ] ].

(** C6. For an MFCC recipe whose sample rate is known, the instruction
    names are [mfcc], then [mfcc_d] if and only if [De or D], then
    [mfcc_dd] if and only if [DDe or DD]. The first-derivative instruction
    has [CepsNbCoeffs = D*coefs + De*1] and [CepsIgnoreFirstCoeff] 0 if
    [De] else 1; the second-derivative one has the same with [DD] and
    [DDe]. With [coefs=11], [D=True] and [De=False] the second instruction
    has [CepsNbCoeffs=11] and [CepsIgnoreFirstCoeff=1]. *)
Theorem mfcc_derivatives :
  forall (self : attrs) (e : bool) (coefs : Z) (De DDe D DD : bool)
         (sr blockSize stepSize : Z),
    sample_rate_ self = Some sr ->
    int_mul sr (duration self) = Ok blockSize ->
    int_mul sr (step self) = Ok stepSize ->
    exists d,
      definition (YaafeMFCC self e coefs De DDe D DD) = Ok d
      /\ map fst d =
           ["mfcc"] ++ (if (De || D)%bool then ["mfcc_d"] else [])
                    ++ (if (DDe || DD)%bool then ["mfcc_dd"] else [])
      /\ ((exists recipe, In ("mfcc_d", recipe) d) <-> (De || D)%bool = true)
      /\ ((exists recipe, In ("mfcc_dd", recipe) d) <-> (DDe || DD)%bool = true)
      /\ (forall recipe, In ("mfcc_d", recipe) d ->
            param "DOrder" recipe = Some 1
            /\ param "CepsNbCoeffs" recipe = Some (of_bool D * coefs + of_bool De * 1)
            /\ param "CepsIgnoreFirstCoeff" recipe = Some (if De then 0 else 1))
      /\ (forall recipe, In ("mfcc_dd", recipe) d ->
            param "DOrder" recipe = Some 2
            /\ param "CepsNbCoeffs" recipe = Some (of_bool DD * coefs + of_bool DDe * 1)
            /\ param "CepsIgnoreFirstCoeff" recipe = Some (if DDe then 0 else 1))
      /\ (coefs = 11 -> D = true -> De = false ->
          exists recipe,
            nth_error d 1 = Some ("mfcc_d", recipe)
            /\ param "CepsNbCoeffs" recipe = Some 11
            /\ param "CepsIgnoreFirstCoeff" recipe = Some 1).
Proof.
  intros self e coefs De DDe D DD sr b s Hsr Hb Hs.
  rewrite (definition_mfcc self sr b s Hsr Hb Hs e coefs De DDe D DD).
  eexists. split; [reflexivity|].
  pose proof (mfcc_d_params (if De then 0 else 1)
                (of_bool D * coefs + of_bool De * 1) b s) as Pd.
  pose proof (mfcc_dd_params (if DDe then 0 else 1)
                (of_bool DD * coefs + of_bool DDe * 1) b s) as Pdd.
  cbv zeta in Pd, Pdd.
  destruct Pd as (Pd1 & Pd2 & _ & _ & Pd5).
  destruct Pdd as (Pdd1 & Pdd2 & _ & _ & Pdd5).
  split; [destruct (De || D)%bool, (DDe || DD)%bool; reflexivity|].
  split; [|split; [|split; [|split]]].
  - destruct (De || D)%bool, (DDe || DD)%bool; cbn [app]; emitted_iff.
  - destruct (De || D)%bool, (DDe || DD)%bool; cbn [app]; emitted_iff.
  - intros r Hin.
    destruct (De || D)%bool, (DDe || DD)%bool; cbn [app In] in Hin;
      repeat (destruct Hin as [Hin|Hin];
              [first [discriminate Hin
                     | injection Hin as <-; repeat split; assumption]|]);
      contradiction.
  - intros r Hin.
    destruct (De || D)%bool, (DDe || DD)%bool; cbn [app In] in Hin;
      repeat (destruct Hin as [Hin|Hin];
              [first [discriminate Hin
                     | injection Hin as <-; repeat split; assumption]|]);
      contradiction.
  - intros -> -> ->. cbn [orb app nth_error].
    eexists. split; [reflexivity|].
    cbn [of_bool] in Pd2. split; assumption.
Qed.

Lemma mfcc_derivatives_witness :
  exists d,
    definition
      (YaafeMFCC (set_sample_rate_ (attrs_of Examples.mfcc) 16000)
                 true 11 false false true false) = Ok d
    /\ map fst d = ["mfcc"; "mfcc_d"]
    /\ exists recipe,
        nth_error d 1 = Some ("mfcc_d", recipe)
        /\ param "CepsNbCoeffs" recipe = Some 11
        /\ param "CepsIgnoreFirstCoeff" recipe = Some 1.
Proof.
  destruct (mfcc_derivatives
              (set_sample_rate_ (attrs_of Examples.mfcc) 16000)
              true 11 false false true false 16000 400 160
              eq_refl eq_refl eq_refl)
    as (d & Hd & Hnames & _ & _ & _ & _ & Hsecond).
  exists d. split; [exact Hd|]. split; [exact Hnames|].
  exact (Hsecond eq_refl eq_refl eq_refl).
Defined.

(** ** Block and step sizes *)

Lemma definition_leaf_embeds (x : YaafeFeatureExtractor) (sr b s : Z) :
  is_leaf x = true ->
  sample_rate_ (attrs_of x) = Some sr ->
  int_mul sr (duration (attrs_of x)) = Ok b ->
  int_mul sr (step (attrs_of x)) = Ok s ->
  embeds_sizes x b s.
Proof.
  destruct x as [self|self e coefs De DDe D DD|self es];
    cbn [is_leaf attrs_of]; intros Hl Hsr Hb Hs; try discriminate.
  - exists [("zcr", percent "ZCR blockSize=%d stepSize=%d" [b; s])].
    split; [now apply definition_zcr with (sr := sr)|].
    split; [discriminate|].
    intros name recipe [Hin|[]]. injection Hin as _ <-.
    apply zcr_params.
  - unfold embeds_sizes.
    rewrite (definition_mfcc self sr b s Hsr Hb Hs e coefs De DDe D DD).
    eexists. split; [reflexivity|]. split; [discriminate|].
    intros name recipe Hin.
    pose proof (mfcc_params (if e then 0 else 1) (coefs + of_bool e * 1) b s)
      as (_ & _ & P1 & P2).
    pose proof (mfcc_d_params (if De then 0 else 1)
                  (of_bool D * coefs + of_bool De * 1) b s)
      as (_ & _ & Q1 & Q2 & _).
    pose proof (mfcc_dd_params (if DDe then 0 else 1)
                  (of_bool DD * coefs + of_bool DDe * 1) b s)
      as (_ & _ & R1 & R2 & _).
    destruct (De || D)%bool, (DDe || DD)%bool; cbn [app In] in Hin;
      repeat (destruct Hin as [Hin|Hin];
              [injection Hin as _ <-; split; assumption|]);
      contradiction.
Qed.

(** The instance a call leaves behind, once the file was read: its class
    and parameters are unchanged and its sample rate is the file's. *)
Lemma update_data_flow_state (W : collaborators)
  (x : YaafeFeatureExtractor) (sr : Z) :
  let x1 := fst (update_data_flow W x sr) in
  x1 = with_attrs x (attrs_of x1)
  /\ sample_rate_ (attrs_of x1) = Some sr
  /\ duration (attrs_of x1) = duration (attrs_of x)
  /\ step (attrs_of x1) = step (attrs_of x)
  /\ sliding_window_ (attrs_of x1) = sliding_window_ (attrs_of x).
Proof.
  unfold update_data_flow, sample_rate_changed.
  destruct x as [self|self e coefs De DDe D DD|self es]; cbn [attrs_of with_attrs];
    (destruct (sample_rate_ self) as [sr0|] eqn:Hsr;
     [destruct (Z.eqb_spec sr0 sr) as [->|Hne]; cbn [negb]|]);
    try (cbn [fst attrs_of]; repeat split; assumption);
    match goal with
    | |- context [definition ?t] => destruct (definition t) as [defs|err]
    end;
    try (cbn [fst attrs_of with_attrs]; repeat split);
    match goal with
    | |- context [add_features ?w ?a ?b ?c] =>
        destruct (add_features w a b c)
    end;
    cbn [fst attrs_of with_attrs]; repeat split.
Qed.

Lemma call_state (W : collaborators) (x : YaafeFeatureExtractor) (it : item)
  (path : string) (y : ndarray) (sr : Z) :
  wav it = Some path ->
  sndio_read W path = ReadOk y sr ->
  fst (fst (__call__ W x it)) = fst (update_data_flow W x sr).
Proof.
  intros Hwav Hread. unfold __call__, features_data.
  rewrite Hwav, Hread.
  destruct (update_data_flow W x sr) as [x1 updated]. cbn [fst].
  match goal with |- context [match ?r with Ok _ => _ | Raise _ => _ end] =>
    destruct r end; reflexivity.
Qed.

(** C1 (as amended). For a ZCR or MFCC recipe, the block size and the step
    size that every parameter string of the instruction list gives are
    [int(sample_rate * duration)] and [int(sample_rate * step)], the float
    products truncated toward zero, whenever these two conversions succeed:
    this holds for the sample rate the instance currently stores, and for
    the instance any call leaves behind it holds with the sample rate of
    the file that call read, whatever was stored before. *)
Theorem block_and_step_size_truncated :
  forall (x : YaafeFeatureExtractor) (sr blockSize stepSize : Z),
    is_leaf x = true ->
    int_mul sr (duration (attrs_of x)) = Ok blockSize ->
    int_mul sr (step (attrs_of x)) = Ok stepSize ->
    (sample_rate_ (attrs_of x) = Some sr -> embeds_sizes x blockSize stepSize)
    /\ (forall (W : collaborators) (it : item) (path : string) (y : ndarray),
          wav it = Some path ->
          sndio_read W path = ReadOk y sr ->
          embeds_sizes (fst (fst (__call__ W x it))) blockSize stepSize).
Proof.
  intros x sr b s Hl Hb Hs. split.
  - intros Hsr. now apply definition_leaf_embeds with (sr := sr).
  - intros W it path y Hwav Hread.
    rewrite (call_state W x it path y sr Hwav Hread).
    destruct (update_data_flow_state W x sr) as (Hx1 & Hsr1 & Hd1 & Hs1 & _).
    apply definition_leaf_embeds with (sr := sr).
    + rewrite Hx1. destruct x; try discriminate; reflexivity.
    + exact Hsr1.
    + now rewrite Hd1.
    + now rewrite Hs1.
Qed.

Lemma block_and_step_size_truncated_witness :
  embeds_sizes (Examples.seen Examples.zcr 11025) 275 110
  /\ embeds_sizes
       (fst (fst (__call__ (Examples.echo_world Examples.stereo)
                    (Examples.seen Examples.mfcc 11025)
                    (Examples.file1 None))))
       400 160.
Proof.
  split.
  - exact (proj1 (block_and_step_size_truncated
                    (Examples.seen Examples.zcr 11025) 11025 275 110
                    eq_refl eq_refl eq_refl) eq_refl).
  - exact (proj2 (block_and_step_size_truncated
                    (Examples.seen Examples.mfcc 11025) 16000 400 160
                    eq_refl eq_refl eq_refl)
             (Examples.echo_world Examples.stereo) (Examples.file1 None) "file1.wav"
             Examples.stereo eq_refl eq_refl).
Defined.

(** C1 as the specification words it fails: for [YaafeZCR()] with the
    default duration 0.025 at 11025 Hz the product is 275.625; the
    instruction says [blockSize=275] while rounding gives 276. *)
Lemma block_size_is_not_rounded :
  definition (Examples.seen Examples.zcr 11025) =
    Ok [("zcr", "ZCR blockSize=275 stepSize=110")]
  /\ param "blockSize" "ZCR blockSize=275 stepSize=110" = Some 275
  /\ SpecWords.spec_size 11025 (duration (attrs_of Examples.zcr)) = Some 276
  /\ param "blockSize" "ZCR blockSize=275 stepSize=110"
     <> SpecWords.spec_size 11025 (duration (attrs_of Examples.zcr)).
Proof.
  repeat split; try (vm_compute; reflexivity).
  vm_compute. discriminate.
Qed.

(** ** Compound recipes *)

Section Comprehension.

Context {A B : Type} (f : A -> result (list B)).


Lemma comprehension_inv (l : list A) (d : list B) :
  comprehension f l = Ok d ->
  exists ds, Forall2 (fun a d => f a = Ok d) l ds /\ d = List.concat ds.
Proof.
  revert d. induction l as [|a l IH]; cbn [comprehension]; intros d H.
  - injection H as <-. exists []. split; [constructor | reflexivity].
  - destruct (f a) as [da|] eqn:Ha; cbn [bind] in H; [|discriminate].
    fold (comprehension f) in H.
    destruct (comprehension f l) as [dl|] eqn:Hl; cbn [bind] in H; [|discriminate].
    injection H as <-.
    destruct (IH dl eq_refl) as (ds & Hall & ->).
    exists (da :: ds). split; [now constructor | reflexivity].
Qed.

Lemma comprehension_raises (l : list A) :
  raises (comprehension f l) = existsb (fun a => raises (f a)) l.
Proof.
  induction l as [|a l IH]; cbn [comprehension existsb]; [reflexivity|].
  fold (comprehension f). rewrite <- IH.
  destruct (f a); cbn [bind raises orb]; [|reflexivity].
  destruct (comprehension f l); reflexivity.
Qed.

End Comprehension.

Lemma sum_fold_right (l : list Z) : sum l = fold_right Z.add 0 l.
Proof.
  unfold sum.
  assert (G : forall a, fold_left Z.add l a = a + fold_right Z.add 0 l).
  { induction l as [|z l IH]; intros a; cbn [fold_left fold_right]; [lia|].
    rewrite IH. lia. }
  now rewrite G.
Qed.



Lemma definition_leaf_inv (x : YaafeFeatureExtractor) (d : list (string * string)) :
  is_leaf x = true ->
  definition x = Ok d ->
  exists sr b s,
    sample_rate_ (attrs_of x) = Some sr
    /\ int_mul sr (duration (attrs_of x)) = Ok b
    /\ int_mul sr (step (attrs_of x)) = Ok s.
Proof.
  destruct x as [self|self e coefs De DDe D DD|self es];
    cbn [is_leaf attrs_of definition]; intros Hl H; try discriminate;
    unfold get_sample_rate_ in H;
    (destruct (sample_rate_ self) as [sr|]; cbn [bind] in H; [|discriminate]);
    (destruct (int_mul sr (duration self)) as [b|] eqn:Hb;
     cbn [bind] in H; [|discriminate]);
    (destruct (int_mul sr (step self)) as [s|] eqn:Hs;
     cbn [bind] in H; [|discriminate]);
    exists sr, b, s; repeat split; assumption.
Qed.

Section NoDuplicates.

Lemma NoDup_app_iff {A : Type} (l1 l2 : list A) :
  NoDup (l1 ++ l2) <->
  NoDup l1 /\ NoDup l2 /\ (forall a, In a l1 -> ~ In a l2).
Proof.
  induction l1 as [|a l1 IH]; cbn [app].
  - split.
    + intros H. repeat split; [constructor | exact H | intros a []].
    + intros (_ & H & _). exact H.
  - rewrite !NoDup_cons_iff, IH, in_app_iff. split.
    + intros (Hna & H1 & H2 & H12). repeat split; try tauto.
      intros b [<-|Hb]; [tauto | now apply H12].
    + intros ((Hna & H1) & H2 & H12). repeat split; try tauto.
      * intros [Ha|Ha]; [tauto | apply (H12 a); [now left | exact Ha]].
      * intros b Hb. apply H12. now right.
Qed.

Lemma disjoint_concat (l : list string) (ls : list (list string)) :
  (forall a, In a l -> ~ In a (List.concat ls)) <-> Forall (disjoint l) ls.
Proof.
  rewrite Forall_forall. unfold disjoint. split.
  - intros H l' Hl' n Hn Hn'. apply (H n Hn).
    apply in_concat. exists l'. split; assumption.
  - intros H a Ha Hin. apply in_concat in Hin as (l' & Hl' & Ha').
    exact (H l' Hl' a Ha Ha').
Qed.

Lemma NoDup_concat (ls : list (list string)) :
  NoDup (List.concat ls) <->
  Forall (@NoDup string) ls /\ ForallOrdPairs disjoint ls.
Proof.
  induction ls as [|l ls IH]; cbn [List.concat].
  - split; [intros _; split; constructor | intros _; constructor].
  - rewrite NoDup_app_iff, IH, disjoint_concat. split.
    + intros (Hl & (Hls & Hpairs) & Hd). split; constructor; assumption.
    + intros (Hall & Hpairs).
      inversion Hall; subst. inversion Hpairs; subst. tauto.
Qed.

Lemma names_of_children (es : list YaafeFeatureExtractor)
  (ds : list (list (string * string))) :
  Forall2 (fun e d => definition e = Ok d) es ds ->
  map names es = map (map fst) ds.
Proof.
  induction 1 as [|e d es ds He _ IH]; cbn [map]; [reflexivity|].
  unfold names at 1. rewrite He, IH. reflexivity.
Qed.

End NoDuplicates.

(** C3 (as amended). The instruction list of a ZCR or MFCC recipe has no
    two entries with the same feature name (and the list is built as soon
    as a sample rate is stored and the two sizes are computed). The list of a compound, which
    joins the lists of its children without renaming anything, has no two
    entries with the same name exactly when no child's list has and no two
    children share a name. *)
Theorem names_unique_in_leaves :
  (forall (x : YaafeFeatureExtractor) (d : list (string * string)),
      is_leaf x = true ->
      definition x = Ok d ->
      NoDup (map fst d))
  /\ (forall (x : YaafeFeatureExtractor) (sr blockSize stepSize : Z),
        is_leaf x = true ->
        sample_rate_ (attrs_of x) = Some sr ->
        int_mul sr (duration (attrs_of x)) = Ok blockSize ->
        int_mul sr (step (attrs_of x)) = Ok stepSize ->
        exists d, definition x = Ok d /\ NoDup (map fst d))
  /\ (forall (self : attrs) (extractors : list YaafeFeatureExtractor)
             (d : list (string * string)),
        definition (YaafeCompound self extractors) = Ok d ->
        (NoDup (map fst d) <->
         Forall (@NoDup string) (map names extractors)
         /\ ForallOrdPairs disjoint (map names extractors))).
Proof.
  assert (Hleaf : forall (x : YaafeFeatureExtractor) (d : list (string * string)),
             is_leaf x = true -> definition x = Ok d -> NoDup (map fst d)).
  2: { split; [exact Hleaf|]. split.
       - intros x sr b s Hl Hsr Hb Hs.
         destruct (definition_leaf_embeds x sr b s Hl Hsr Hb Hs) as (d & Hd & _).
         exists d. split; [exact Hd | now apply Hleaf with (x := x)].
       - intros self es d Hd. cbn [definition] in Hd.
         apply comprehension_inv in Hd as (ds & Hall & ->).
         rewrite concat_map, (names_of_children es ds Hall).
         apply NoDup_concat. }
  { intros x d Hl Hd.
    destruct (definition_leaf_inv x d Hl Hd) as (sr & b & s & Hsr & Hb & Hs).
    destruct x as [self|self e coefs De DDe D DD|self es]; try discriminate;
      cbn [attrs_of] in Hsr, Hb, Hs.
    + rewrite (definition_zcr self sr b s Hsr Hb Hs) in Hd.
      injection Hd as <-. cbn [map fst].
      constructor; [intros [] | constructor].
    + rewrite (definition_mfcc self sr b s Hsr Hb Hs) in Hd.
      injection Hd as <-.
      destruct (De || D)%bool, (DDe || DD)%bool; cbn [app map fst];
        repeat (constructor;
                [cbn [In]; intros H;
                 repeat (destruct H as [H|H]; [discriminate H|]); exact H|]);
        constructor. }
Qed.

Lemma names_unique_in_leaves_witness :
  NoDup (map fst [("zcr", "ZCR blockSize=400 stepSize=160")])
  /\ exists d,
      definition
        (YaafeMFCC (set_sample_rate_ (attrs_of Examples.mfcc) 16000)
           true 11 true true true true) = Ok d
      /\ NoDup (map fst d).
Proof.
  split.
  - apply (proj1 names_unique_in_leaves (Examples.seen Examples.zcr 16000));
      reflexivity.
  - apply (proj1 (proj2 names_unique_in_leaves)
             (YaafeMFCC (set_sample_rate_ (attrs_of Examples.mfcc) 16000)
                true 11 true true true true) 16000 400 160);
      reflexivity.
Defined.

(** C3 as stated fails on a compound of two ZCR recipes (the same recipe
    listed twice, after it has observed 16 kHz): the name [zcr] comes
    twice. *)
Lemma compound_repeats_names :
  YaafeCompound__init__
    [Examples.seen Examples.zcr 16000; Examples.seen Examples.zcr 16000]
    default_duration default_step
  = Ok (YaafeCompound (initial_attrs default_duration default_step)
          [Examples.seen Examples.zcr 16000; Examples.seen Examples.zcr 16000])
  /\ definition
       (YaafeCompound (initial_attrs default_duration default_step)
          [Examples.seen Examples.zcr 16000; Examples.seen Examples.zcr 16000])
     = Ok [("zcr", "ZCR blockSize=400 stepSize=160");
           ("zcr", "ZCR blockSize=400 stepSize=160")]
  /\ ~ NoDup (map fst [("zcr", "ZCR blockSize=400 stepSize=160");
                       ("zcr", "ZCR blockSize=400 stepSize=160")]).
Proof.
  split; [reflexivity|]. split; [reflexivity|].
  cbn [map fst]. intros H. apply NoDup_cons_iff in H as [H _].
  apply H. now left.
Qed.

(** ** Construction of a compound *)

Section FloatEquality.



End FloatEquality.

Section Induction.

Variable P : YaafeFeatureExtractor -> Prop.
Hypothesis P_zcr : forall self, P (YaafeZCR self).
Hypothesis P_mfcc :
  forall self e coefs De DDe D DD, P (YaafeMFCC self e coefs De DDe D DD).
Hypothesis P_compound :
  forall self extractors, Forall P extractors -> P (YaafeCompound self extractors).

(** Induction over a recipe and, for a compound, over all its children. *)
Lemma extractor_induction : forall x : YaafeFeatureExtractor, P x.
Proof.
  fix IH 1. intros [self|self e coefs De DDe D DD|self es].
  - apply P_zcr.
  - apply P_mfcc.
  - apply P_compound.
    induction es as [|e es IHes]; constructor; [apply IH | exact IHes].
Qed.

End Induction.

Section Assertions.






Lemma select_channel_error (y : ndarray) (it : item) (e : exn) :
  select_channel y it = Raise e -> e = IndexError.
Proof.
  unfold select_channel, column. destruct (as_2d y) as [c rows].
  destruct (_ || _)%bool; [|discriminate]. now intros [= <-].
Qed.


End Assertions.







(** ** Before the first extraction call *)

(** C10 (as amended). A ZCR or MFCC instance whose sample rate was never
    observed raises [AttributeError] when asked for its instructions,
    while its hash, the default object hash, is returned. For a compound,
    the instructions and the hash raise exactly when building the
    instructions of some child raises, whatever the compound's own sample
    rate field: a compound returns both before its first call when it has
    no child or when each child builds its instructions. An instance that
    the constructor builds has its sample rate field unset; a call that
    reads a file sets it. *)
Theorem instructions_before_first_call :
  (forall x : YaafeFeatureExtractor,
      is_leaf x = true ->
      sample_rate_ (attrs_of x) = None ->
      definition x = Raise AttributeError /\ __hash__ x = Ok HashOfIdentity)
  /\ (forall (self : attrs) (extractors : list YaafeFeatureExtractor),
        raises (definition (YaafeCompound self extractors)) =
          existsb (fun e => raises (definition e)) extractors
        /\ raises (__hash__ (YaafeCompound self extractors)) =
             existsb (fun e => raises (definition e)) extractors)
  /\ (forall (duration step : float) (self : attrs),
        YaafeFeatureExtractor__init__ duration step = Ok self ->
        sample_rate_ self = None)
  /\ (forall (W : collaborators) (x : YaafeFeatureExtractor) (it : item)
             (path : string) (y : ndarray) (sr : Z),
        wav it = Some path ->
        sndio_read W path = ReadOk y sr ->
        sample_rate_ (attrs_of (fst (fst (__call__ W x it)))) = Some sr).
Proof.
  split; [|split; [|split]].
  - intros x Hl Hs. split; [now apply definition_leaf_unset|].
    destruct x; try discriminate; reflexivity.
  - intros self es.
    assert (H : raises (definition (YaafeCompound self es)) =
                existsb (fun e => raises (definition e)) es).
    { cbn [definition]. apply comprehension_raises. }
    split; [exact H|].
    rewrite <- H. unfold __hash__.
    destruct (definition (YaafeCompound self es)); reflexivity.
  - intros d s self Hinit. apply base_constructor_inv in Hinit. now subst self.
  - intros W x it path y sr Hwav Hread.
    rewrite (call_state W x it path y sr Hwav Hread).
    apply update_data_flow_state.
Qed.

Lemma instructions_before_first_call_witness :
  definition Examples.mfcc = Raise AttributeError
  /\ __hash__ Examples.mfcc = Ok HashOfIdentity.
Proof.
  apply (proj1 instructions_before_first_call Examples.mfcc); reflexivity.
Defined.

(** C10 as stated fails: a compound without children, and a compound whose
    only child has observed a sample rate, both build their instructions
    and their hash although no call was made on them; and the hash of a
    fresh ZCR recipe is returned. *)
Lemma fresh_compound_returns :
  YaafeCompound__init__ [] default_duration default_step
    = Ok (YaafeCompound (initial_attrs default_duration default_step) [])
  /\ sample_rate_ (initial_attrs default_duration default_step) = None
  /\ definition
       (YaafeCompound (initial_attrs default_duration default_step) [])
     = Ok []
  /\ __hash__
       (YaafeCompound (initial_attrs default_duration default_step) [])
     = Ok (HashOfTuple [])
  /\ definition
       (YaafeCompound (initial_attrs default_duration default_step)
          [Examples.seen Examples.zcr 16000])
     = Ok [("zcr", "ZCR blockSize=400 stepSize=160")]
  /\ YaafeZCR__init__ default_duration default_step = Ok Examples.zcr
  /\ sample_rate_ (attrs_of Examples.zcr) = None
  /\ __hash__ Examples.zcr = Ok HashOfIdentity.
Proof.
  repeat split.
Qed.

(** ** Channel selection *)






(** ** NaN in the extracted features *)

(** C4. When the call reaches the concatenated feature data and a value of
    it is NaN, the call does not raise: it emits exactly one warning, whose
    message holds the unique identifier of the item, and returns the data
    unchanged (so with its NaN), timed by the sliding window of the
    instance. *)
Theorem nan_is_warned_not_raised :
  forall (W : collaborators) (x x1 : YaafeFeatureExtractor) (it : item)
         (features : matrix),
    features_data W x it = (x1, Ok features) ->
    any_isnan features = true ->
    __call__ W x it =
      (x1, [nan_message (get_unique_identifier W it)],
       Ok (mkSlidingWindowFeature features (sliding_window_ (attrs_of x1))))
    /\ (exists before after,
          nan_message (get_unique_identifier W it) =
          before +++ get_unique_identifier W it +++ after)
    /\ (forall swf, snd (__call__ W x it) = Ok swf -> any_isnan (data swf) = true).
Proof.
  intros W x x1 it features Hdata Hnan.
  assert (Hcall : __call__ W x it =
      (x1, [nan_message (get_unique_identifier W it)],
       Ok (mkSlidingWindowFeature features (sliding_window_ (attrs_of x1))))).
  { unfold __call__. rewrite Hdata, Hnan. reflexivity. }
  split; [exact Hcall|]. split.
  - exists ("Features extracted from " +++ dquote),
           (dquote +++ " contain NaNs.").
    unfold nan_message.
    generalize (get_unique_identifier W it) as u. intros u.
    generalize ("Features extracted from ") as a. intros a.
    induction a as [|ch a IH]; cbn [String.append]; [reflexivity|].
    now rewrite IH.
  - intros swf. rewrite Hcall. cbn [snd]. intros [= <-]. exact Hnan.
Qed.

Lemma nan_is_warned_not_raised_witness :
  snd (fst (__call__ Examples.nan_world Examples.zcr (Examples.file1 None)))
    = [nan_message "file1"]
  /\ snd (__call__ Examples.nan_world Examples.zcr (Examples.file1 None))
     = Ok (mkSlidingWindowFeature [[nan]] (sliding_window_ (attrs_of Examples.zcr))).
Proof.
  destruct (nan_is_warned_not_raised Examples.nan_world Examples.zcr
              (fst (features_data Examples.nan_world Examples.zcr
                      (Examples.file1 None)))
              (Examples.file1 None) [[nan]] eq_refl eq_refl) as [H _].
  rewrite H. split; reflexivity.
Defined.

(* ================================================================== *)
(** * Further properties of the two files *)
(* ================================================================== *)

(** ** What a call changes on the instance *)

Section InstanceState.

Lemma with_attrs_self (x : YaafeFeatureExtractor) :
  with_attrs x (attrs_of x) = x.
Proof. destruct x; reflexivity. Qed.

Lemma with_attrs_twice (x : YaafeFeatureExtractor) (a b : attrs) :
  with_attrs (with_attrs x a) b = with_attrs x b.
Proof. destruct x; reflexivity. Qed.

Lemma attrs_of_with_attrs (x : YaafeFeatureExtractor) (a : attrs) :
  attrs_of (with_attrs x a) = a.
Proof. destruct x; reflexivity. Qed.

(** Building the instructions reads the sample rate, the duration and the
    step of the instance, nothing else of its attributes. *)
Lemma definition_with_attrs (x : YaafeFeatureExtractor) (a b : attrs) :
  sample_rate_ a = sample_rate_ b ->
  duration a = duration b ->
  step a = step b ->
  definition (with_attrs x a) = definition (with_attrs x b).
Proof.
  intros Hsr Hd Hs.
  destruct x as [self|self e coefs De DDe D DD|self es];
    cbn [with_attrs definition]; unfold get_sample_rate_;
    rewrite ?Hsr, ?Hd, ?Hs; reflexivity.
Qed.

Lemma call_preserves (W : collaborators) (x : YaafeFeatureExtractor) (it : item) :
  let x1 := fst (fst (__call__ W x it)) in
  x1 = with_attrs x (attrs_of x1)
  /\ duration (attrs_of x1) = duration (attrs_of x)
  /\ step (attrs_of x1) = step (attrs_of x)
  /\ sliding_window_ (attrs_of x1) = sliding_window_ (attrs_of x).
Proof.
  cbv zeta.
  destruct (wav it) as [path|] eqn:Hwav.
  - destruct (sndio_read W path) as [err|y sr] eqn:Hread.
    + unfold __call__, features_data. rewrite Hwav, Hread. cbn [fst].
      rewrite with_attrs_self. repeat split.
    + rewrite (call_state W x it path y sr Hwav Hread).
      destruct (update_data_flow_state W x sr) as (H1 & _ & H2 & H3 & H4).
      repeat split; assumption.
  - unfold __call__, features_data. rewrite Hwav. cbn [fst].
    rewrite with_attrs_self. repeat split.
Qed.

Lemma calls_preserve (W : collaborators) (items : list item)
  (x : YaafeFeatureExtractor) :
  let xn := calls W x items in
  xn = with_attrs x (attrs_of xn)
  /\ duration (attrs_of xn) = duration (attrs_of x)
  /\ step (attrs_of xn) = step (attrs_of x)
  /\ sliding_window_ (attrs_of xn) = sliding_window_ (attrs_of x).
Proof.
  cbv zeta. unfold calls. revert x.
  induction items as [|it items IH]; intros x; cbn [fold_left].
  - rewrite with_attrs_self. repeat split.
  - destruct (call_preserves W x it) as (H1 & H2 & H3 & H4).
    destruct (IH (fst (fst (__call__ W x it)))) as (G1 & G2 & G3 & G4).
    repeat split; try congruence.
    rewrite G1 at 1. rewrite H1 at 1. apply with_attrs_twice.
Qed.

End InstanceState.

(** X1. Whatever the items and whatever each call returns or raises, a
    sequence of calls leaves the class of the instance, its parameters, its
    children, its duration, its step and its sliding window as they were:
    calls only write the sample rate and the engine. *)
Theorem calls_only_touch_rate_and_engine :
  forall (W : collaborators) (x : YaafeFeatureExtractor) (items : list item),
    calls W x items = with_attrs x (attrs_of (calls W x items))
    /\ duration (attrs_of (calls W x items)) = duration (attrs_of x)
    /\ step (attrs_of (calls W x items)) = step (attrs_of x)
    /\ sliding_window_ (attrs_of (calls W x items)) = sliding_window_ (attrs_of x)
    /\ dimension (calls W x items) = dimension x.
Proof.
  intros W x items.
  destruct (calls_preserve W items x) as (H1 & H2 & H3 & H4).
  repeat split; try assumption.
  rewrite H1. destruct x; reflexivity.
Qed.

(** X2. For an instance built by one of the constructors with duration [d]
    and step [s], whatever calls were made on it before, the features a
    call returns are timed by the window that starts at [-0.5 * d], lasts
    [d] and advances by [s]. *)
Theorem returned_window_is_centred :
  forall (W : collaborators) (x : YaafeFeatureExtractor) (d s : float)
         (items : list item) (it : item) (swf : SlidingWindowFeature),
    YaafeFeatureExtractor__init__ d s = Ok (attrs_of x) ->
    snd (__call__ W (calls W x items) it) = Ok swf ->
    sliding_window swf = mkSlidingWindow (-0.5 * d)%float d s.
Proof.
  intros W x d s items it swf Hinit Hcall.
  apply base_constructor_inv in Hinit.
  destruct (calls_preserve W items x) as (_ & _ & _ & Hwin).
  destruct (call_preserves W (calls W x items) it) as (_ & _ & _ & Hwin1).
  unfold __call__ in Hcall, Hwin1.
  destruct (features_data W (calls W x items) it) as [x1 [features|err]];
    cbn [snd fst] in Hcall, Hwin1; [|discriminate].
  injection Hcall as <-. cbn [sliding_window].
  rewrite Hwin1, Hwin, Hinit. reflexivity.
Qed.

Lemma returned_window_is_centred_witness :
  sliding_window
    (mkSlidingWindowFeature [[2%float]; [4%float]]
       (sliding_window_ (attrs_of Examples.zcr)))
  = mkSlidingWindow (-0.5 * 0.025)%float 0.025%float 0.010%float.
Proof.
  apply (returned_window_is_centred (Examples.echo_world Examples.stereo)
           Examples.zcr 0.025%float 0.010%float
           [Examples.file1 (Some 3); Examples.file1 None]
           (Examples.file1 (Some 2))); reflexivity.
Defined.

(** ** The data flow kept by the instance *)

Section DataFlow.

Variable W : collaborators.

Lemma update_same_rate (x : YaafeFeatureExtractor) (sr : Z) :
  sample_rate_ (attrs_of x) = Some sr ->
  update_data_flow W x sr = (x, Ok tt).
Proof.
  intros H. unfold update_data_flow, sample_rate_changed.
  rewrite H, Z.eqb_refl. reflexivity.
Qed.

Lemma add_features_lines (sr : Z) (defs : list (string * string))
  (plan lines : list string) :
  add_features W sr plan defs = Ok lines ->
  lines = plan ++ plan_lines defs.
Proof.
  revert plan. induction defs as [|[name recipe] defs IH]; intros plan;
    cbn [add_features plan_lines map fst snd].
  - intros [= <-]. now rewrite app_nil_r.
  - destruct (addFeature W sr plan (name +++ ": " +++ recipe)); [|discriminate].
    intros H. apply IH in H. rewrite H, <- app_assoc. reflexivity.
Qed.

Lemma add_features_error (sr : Z) (defs : list (string * string))
  (plan : list string) (e : exn) :
  add_features W sr plan defs = Raise e -> e = AssertionError.
Proof.
  revert plan. induction defs as [|[name recipe] defs IH]; intros plan;
    cbn [add_features]; [discriminate|].
  destruct (addFeature W sr plan (name +++ ": " +++ recipe)).
  - apply IH.
  - now intros [= <-].
Qed.

(** An update that raises has stored the sample rate and left the engine
    as it was. *)
Lemma update_failure_state (x : YaafeFeatureExtractor) (sr : Z) (e : exn) :
  snd (update_data_flow W x sr) = Raise e ->
  fst (update_data_flow W x sr)
    = with_attrs x (set_sample_rate_ (attrs_of x) sr).
Proof.
  unfold update_data_flow.
  destruct (sample_rate_changed (attrs_of x) sr); [|discriminate].
  destruct (definition _) as [defs|err]; [|reflexivity].
  destruct (add_features W sr [] defs); [discriminate | reflexivity].
Qed.

End DataFlow.



(** X4. When the data-flow update of a call raises (the instructions cannot
    be built, or the feature plan refuses one), the call raises that
    error, the new sample rate is stored all the same and the engine is
    left as it was; a later call at the same sample rate therefore does not
    rebuild the plan: it goes on to the channel selection and hands the
    signal to the engine as it was before the failed update. *)
Theorem failed_update_is_not_retried :
  forall (W : collaborators) (x : YaafeFeatureExtractor) (it : item)
         (path : string) (y : ndarray) (sr : Z) (e : exn),
    wav it = Some path ->
    sndio_read W path = ReadOk y sr ->
    snd (update_data_flow W x sr) = Raise e ->
    let x1 := fst (fst (__call__ W x it)) in
    snd (__call__ W x it) = Raise e
    /\ sample_rate_ (attrs_of x1) = Some sr
    /\ engine_ (attrs_of x1) = engine_ (attrs_of x)
    /\ (forall (it' : item) (path' : string) (y' : ndarray),
          wav it' = Some path' ->
          sndio_read W path' = ReadOk y' sr ->
          features_data W x1 it'
          = (x1,
             y1 <- select_channel y' it' ;;
             defs <- definition x1 ;;
             blocks <- lookup_all
                         (processAudio W (engine_ (attrs_of x)) y1)
                         (map fst defs) ;;
             hstack blocks)).
Proof.
  intros W x it path y sr e Hwav Hread Hfail. cbv zeta.
  rewrite (call_state W x it path y sr Hwav Hread).
  pose proof (update_failure_state W x sr e Hfail) as Hx1.
  assert (Hsr : sample_rate_ (attrs_of (fst (update_data_flow W x sr))) = Some sr).
  { apply update_data_flow_state. }
  assert (Heng : engine_ (attrs_of (fst (update_data_flow W x sr)))
                 = engine_ (attrs_of x)).
  { rewrite Hx1, attrs_of_with_attrs. reflexivity. }
  split; [|split; [exact Hsr|split; [exact Heng|]]].
  - unfold __call__, features_data. rewrite Hwav, Hread.
    destruct (update_data_flow W x sr) as [x1 u]. cbn [snd] in Hfail.
    subst u. reflexivity.
  - intros it' path' y' Hwav' Hread'.
    unfold features_data. rewrite Hwav', Hread'.
    rewrite (update_same_rate W _ sr Hsr). cbn [bind]. rewrite Heng.
    reflexivity.
Qed.

Lemma failed_update_is_not_retried_witness :
  snd (__call__ Examples.refusing_world Examples.zcr (Examples.file1 None))
    = Raise AssertionError
  /\ sample_rate_
       (attrs_of (fst (fst (__call__ Examples.refusing_world Examples.zcr
                              (Examples.file1 None))))) = Some 16000
  /\ engine_
       (attrs_of (fst (fst (__call__ Examples.refusing_world Examples.zcr
                              (Examples.file1 None))))) = None.
Proof.
  destruct (failed_update_is_not_retried Examples.refusing_world Examples.zcr
              (Examples.file1 None) "file1.wav" Examples.stereo 16000
              AssertionError eq_refl eq_refl eq_refl)
    as (H1 & H2 & H3 & _).
  repeat split; assumption.
Defined.

(** X5. A call that reads a sample rate other than the stored one (or the
    first sample rate) and gets past the data-flow update leaves an instance
    whose engine holds exactly the lines [name: recipe] of the instructions
    the instance builds at the sample rate it now stores; a call at the
    stored sample rate keeps an engine that is in that state. *)
Theorem engine_follows_the_instructions :
  forall (W : collaborators) (x : YaafeFeatureExtractor) (it : item)
         (path : string) (y : ndarray) (sr : Z),
    wav it = Some path ->
    sndio_read W path = ReadOk y sr ->
    sample_rate_changed (attrs_of x) sr = true \/ loaded_for x ->
    snd (update_data_flow W x sr) = Ok tt ->
    loaded_for (fst (fst (__call__ W x it))).
Proof.
  intros W x it path y sr Hwav Hread Hpre Hok.
  rewrite (call_state W x it path y sr Hwav Hread).
  unfold update_data_flow in *.
  destruct (sample_rate_changed (attrs_of x) sr) eqn:Hch.
  - set (x1 := with_attrs x (set_sample_rate_ (attrs_of x) sr)) in *.
    destruct (definition x1) as [defs|err] eqn:Hdef; [|discriminate].
    destruct (add_features W sr [] defs) as [lines|err] eqn:Hadd; [|discriminate].
    cbn [fst]. exists sr, defs.
    rewrite attrs_of_with_attrs. cbn [sample_rate_ engine_ set_engine_].
    apply add_features_lines in Hadd. cbn [app] in Hadd. subst lines.
    split; [|split; [|reflexivity]].
    + subst x1. rewrite attrs_of_with_attrs. reflexivity.
    + rewrite <- Hdef. subst x1. rewrite with_attrs_twice.
      apply definition_with_attrs; rewrite attrs_of_with_attrs; reflexivity.
  - cbn [fst]. destruct Hpre as [Hpre|Hpre]; [discriminate | exact Hpre].
Qed.

Lemma engine_follows_the_instructions_witness :
  loaded_for
    (fst (fst (__call__ (Examples.echo_world Examples.stereo) Examples.zcr
                 (Examples.file1 None)))).
Proof.
  apply (engine_follows_the_instructions (Examples.echo_world Examples.stereo)
           Examples.zcr (Examples.file1 None) "file1.wav" Examples.stereo 16000
           eq_refl eq_refl).
  - left. reflexivity.
  - reflexivity.
Defined.

(** ** Which errors a call raises *)

Section Errors.

Lemma int_mul_errors (n : Z) (x : float) (e : exn) :
  int_mul n x = Raise e -> e = ValueError \/ e = OverflowError.
Proof.
  unfold int_mul, mul_int_float, float_of_int, int_of_float.
  destruct (is_infinity _); cbn [bind]; [intros [= <-]; now right|].
  destruct (Prim2SF _) as [| | |s m ex]; try discriminate;
    try (intros [= <-]; tauto).
  destruct (0 <=? ex); discriminate.
Qed.

(** Building instructions raises for a missing sample rate or a float
    product that is not a finite number, never for another reason. *)
Lemma definition_errors (x : YaafeFeatureExtractor) (e : exn) :
  definition x = Raise e ->
  e = AttributeError \/ e = ValueError \/ e = OverflowError.
Proof.
  induction x as [self|self en coefs De DDe D DD|self es IH]
    using extractor_induction.
  - cbn [definition]. unfold get_sample_rate_.
    destruct (sample_rate_ self) as [sr|]; cbn [bind]; [|intros [= <-]; tauto].
    destruct (int_mul sr (duration self)) eqn:H1; cbn [bind];
      [|intros [= <-]; right; now apply int_mul_errors in H1].
    destruct (int_mul sr (step self)) eqn:H2; cbn [bind]; [discriminate|].
    intros [= <-]. right. now apply int_mul_errors in H2.
  - cbn [definition]. unfold get_sample_rate_.
    destruct (sample_rate_ self) as [sr|]; cbn [bind]; [|intros [= <-]; tauto].
    destruct (int_mul sr (duration self)) eqn:H1; cbn [bind];
      [|intros [= <-]; right; now apply int_mul_errors in H1].
    destruct (int_mul sr (step self)) eqn:H2; cbn [bind]; [discriminate|].
    intros [= <-]. right. now apply int_mul_errors in H2.
  - cbn [definition].
    induction IH as [|c es Hc _ IHes]; cbn [comprehension]; [discriminate|].
    fold (comprehension definition).
    destruct (definition c) as [dc|ec]; cbn [bind];
      [|intros [= <-]; now apply Hc].
    destruct (comprehension definition es); cbn [bind]; [discriminate|].
    intros [= <-]. now apply IHes.
Qed.

Lemma lookup_all_error (features : string -> option matrix)
  (l : list string) (e : exn) :
  lookup_all features l = Raise e -> e = KeyError.
Proof.
  induction l as [|n l IH]; cbn [lookup_all]; [discriminate|].
  destruct (features n); [|now intros [= <-]].
  destruct (lookup_all features l); cbn [bind]; [discriminate|].
  intros [= <-]. now apply IH.
Qed.

Lemma hstack_error (blocks : list matrix) (e : exn) :
  hstack blocks = Raise e -> e = ValueError.
Proof.
  induction blocks as [|b rest IH]; cbn [hstack]; [now intros [= <-]|].
  destruct rest as [|b' rest']; [discriminate|].
  destruct (hstack (b' :: rest')); cbn [bind].
  - destruct (Nat.eqb _ _); [discriminate | now intros [= <-]].
  - intros [= <-]. now apply IH.
Qed.

(** Once the file is read, a call raises one of six plain errors. *)
Lemma call_errors_after_read (W : collaborators) (x : YaafeFeatureExtractor)
  (it : item) (path : string) (y : ndarray) (sr : Z) (e : exn) :
  wav it = Some path ->
  sndio_read W path = ReadOk y sr ->
  snd (__call__ W x it) = Raise e ->
  plain_error e.
Proof.
  intros Hwav Hread. unfold __call__, features_data. rewrite Hwav, Hread.
  unfold plain_error.
  assert (Hup : forall e', snd (update_data_flow W x sr) = Raise e' ->
                           plain_error e').
  { unfold update_data_flow, plain_error. intros e'.
    destruct (sample_rate_changed (attrs_of x) sr); [|discriminate].
    destruct (definition _) as [defs|err] eqn:Hd; cbn [snd].
    - destruct (add_features W sr [] defs) eqn:Ha; cbn [snd]; [discriminate|].
      intros [= <-]. apply add_features_error in Ha. tauto.
    - intros [= <-]. apply definition_errors in Hd. tauto. }
  destruct (update_data_flow W x sr) as [x1 [[]|err]]; cbn [bind snd] in *.
  - destruct (select_channel y it) as [y1|err] eqn:Hsel; cbn [bind].
    + destruct (definition x1) as [defs|err] eqn:Hd; cbn [bind snd].
      * destruct (lookup_all _ _) as [blocks|err] eqn:Hl; cbn [bind snd].
        -- destruct (hstack blocks) eqn:Hh; cbn [snd]; [discriminate|].
           intros [= <-]. apply hstack_error in Hh. tauto.
        -- intros [= <-]. apply lookup_all_error in Hl. tauto.
      * intros [= <-]. apply definition_errors in Hd. tauto.
    + cbn [snd]. intros [= <-]. apply select_channel_error in Hsel. tauto.
  - intros [= <-]. now apply Hup.
Qed.

End Errors.

(** X6. A call raises [PyannoteFeatureExtractionError] exactly when reading
    the file raised [IOError], and the error then carries that [IOError];
    no failure of a later step (building the plan, selecting the channel,
    collecting the blocks) is wrapped in it. An item without a [wav] key
    raises [KeyError], unwrapped. *)
Theorem only_the_read_error_is_wrapped :
  forall (W : collaborators) (x : YaafeFeatureExtractor) (it : item) (e : string),
    (snd (__call__ W x it) = Raise (PyannoteFeatureExtractionError e) <->
     exists path, wav it = Some path /\ sndio_read W path = ReadIOError e)
    /\ (wav it = None -> snd (__call__ W x it) = Raise KeyError).
Proof.
  intros W x it e. split; [split|].
  - intros H. destruct (wav it) as [path|] eqn:Hwav.
    + destruct (sndio_read W path) as [err|y sr] eqn:Hread.
      * unfold __call__, features_data in H. rewrite Hwav, Hread in H.
        cbn [snd] in H. injection H as ->. now exists path.
      * apply (call_errors_after_read W x it path y sr _ Hwav Hread) in H.
        unfold plain_error in H.
        repeat (destruct H as [H|H]; [discriminate H|]). discriminate H.
    + unfold __call__, features_data in H. rewrite Hwav in H. discriminate H.
  - intros (path & Hwav & Hread).
    unfold __call__, features_data. rewrite Hwav, Hread. reflexivity.
  - intros Hwav. unfold __call__, features_data. rewrite Hwav. reflexivity.
Qed.

Lemma only_the_read_error_is_wrapped_witness :
  snd (__call__ Examples.unreadable_world Examples.zcr (Examples.file1 None))
    = Raise (PyannoteFeatureExtractionError "no such file")
  /\ snd (__call__ Examples.unreadable_world Examples.zcr
            (mkItem None None "file1")) = Raise KeyError.
Proof.
  split.
  - apply (proj1 (only_the_read_error_is_wrapped Examples.unreadable_world
                    Examples.zcr (Examples.file1 None) "no such file")).
    exists "file1.wav". split; reflexivity.
  - apply (proj2 (only_the_read_error_is_wrapped Examples.unreadable_world
                    Examples.zcr (mkItem None None "file1") "no such file")).
    reflexivity.
Defined.

(** ** Compounds and the sample rate of their children *)

Section CompoundCalls.

Lemma comprehension_app {A B : Type} (f : A -> result (list B)) (l1 l2 : list A) :
  comprehension f (l1 ++ l2) =
  (d1 <- comprehension f l1 ;; d2 <- comprehension f l2 ;; Ok (d1 ++ d2)).
Proof.
  induction l1 as [|a l1 IH]; cbn [app comprehension].
  - cbn [bind]. destruct (comprehension f l2); reflexivity.
  - fold (comprehension f). rewrite IH.
    destruct (f a) as [da|]; cbn [bind]; [|reflexivity].
    destruct (comprehension f l1) as [d1|]; cbn [bind]; [|reflexivity].
    destruct (comprehension f l2) as [d2|]; cbn [bind]; [|reflexivity].
    now rewrite app_assoc.
Qed.

Lemma call_raises_when_definition_does (W : collaborators)
  (x : YaafeFeatureExtractor) (it : item) (e : exn) :
  (forall a, definition (with_attrs x a) = Raise e) ->
  raises (snd (__call__ W x it)) = true
  /\ (forall path y sr,
        wav it = Some path ->
        sndio_read W path = ReadOk y sr ->
        sample_rate_changed (attrs_of x) sr = true ->
        snd (__call__ W x it) = Raise e).
Proof.
  intros Hdef.
  assert (Hx : definition x = Raise e).
  { rewrite <- (with_attrs_self x). apply Hdef. }
  unfold __call__, features_data, update_data_flow. split.
  - destruct (wav it) as [path|]; [|reflexivity].
    destruct (sndio_read W path) as [err|y sr]; [reflexivity|].
    destruct (sample_rate_changed (attrs_of x) sr).
    + rewrite Hdef. reflexivity.
    + cbn [bind]. rewrite Hx.
      destruct (select_channel y it); reflexivity.
  - intros path y sr Hwav Hread Hch. rewrite Hwav, Hread, Hch, Hdef.
    reflexivity.
Qed.

End CompoundCalls.

(** X7. A call on a compound never gives its children a sample rate: when
    building the instructions of the compound raises (as it does with
    [AttributeError] for a child ZCR or MFCC recipe that observed no
    sample rate through a call of its own), every call on the compound
    raises, also after any number of earlier calls on it, and a call that
    reads a file at a sample rate new to the compound raises that very
    error. *)
Theorem compound_cannot_ready_its_children :
  forall (W : collaborators) (self : attrs)
         (extractors : list YaafeFeatureExtractor) (e : exn)
         (items : list item) (it : item),
    definition (YaafeCompound self extractors) = Raise e ->
    raises (snd (__call__ W (calls W (YaafeCompound self extractors) items) it))
      = true
    /\ (forall path y sr,
          wav it = Some path ->
          sndio_read W path = ReadOk y sr ->
          sample_rate_changed self sr = true ->
          snd (__call__ W (YaafeCompound self extractors) it) = Raise e).
Proof.
  intros W self es e items it Hdef. split.
  - destruct (calls_preserve W items (YaafeCompound self es)) as (Hx & _).
    rewrite Hx. cbn [with_attrs].
    apply (call_raises_when_definition_does W _ it e).
    intros a. exact Hdef.
  - apply (call_raises_when_definition_does W (YaafeCompound self es) it e).
    intros a. exact Hdef.
Qed.

Lemma compound_cannot_ready_its_children_witness :
  raises
    (snd (__call__ (Examples.echo_world Examples.stereo)
            (calls (Examples.echo_world Examples.stereo)
               (YaafeCompound (attrs_of Examples.zcr) [Examples.zcr; Examples.mfcc])
               [Examples.file1 None; Examples.file1 None])
            (Examples.file1 None))) = true
  /\ snd (__call__ (Examples.echo_world Examples.stereo)
            (YaafeCompound (attrs_of Examples.zcr) [Examples.zcr; Examples.mfcc])
            (Examples.file1 None)) = Raise AttributeError.
Proof.
  destruct (compound_cannot_ready_its_children
              (Examples.echo_world Examples.stereo) (attrs_of Examples.zcr)
              [Examples.zcr; Examples.mfcc] AttributeError
              [Examples.file1 None; Examples.file1 None] (Examples.file1 None)
              eq_refl) as [H1 H2].
  split; [exact H1|].
  exact (H2 "file1.wav" Examples.stereo 16000 eq_refl eq_refl eq_refl).
Defined.

(** X8. A compound listed among the children of another compound counts as
    its own children listed in its place: the instructions (the error
    included, when one is raised), the dimension and the hash of the outer
    compound are the same either way. *)
Theorem nested_compound_is_inlined :
  forall (self inner : attrs)
         (before children after : list YaafeFeatureExtractor),
    definition (YaafeCompound self (before ++ YaafeCompound inner children :: after))
    = definition (YaafeCompound self (before ++ children ++ after))
    /\ dimension (YaafeCompound self (before ++ YaafeCompound inner children :: after))
       = dimension (YaafeCompound self (before ++ children ++ after))
    /\ __hash__ (YaafeCompound self (before ++ YaafeCompound inner children :: after))
       = __hash__ (YaafeCompound self (before ++ children ++ after)).
Proof.
  intros self inner pre es post.
  assert (Hdef :
    definition (YaafeCompound self (pre ++ YaafeCompound inner es :: post))
    = definition (YaafeCompound self (pre ++ es ++ post))).
  { cbn [definition]. rewrite !comprehension_app.
    destruct (comprehension definition pre) as [dpre|]; cbn [bind]; [|reflexivity].
    cbn [comprehension definition]. fold (comprehension definition).
    destruct (comprehension definition es) as [des|]; cbn [bind]; [|reflexivity].
    destruct (comprehension definition post) as [dpost|]; reflexivity. }
  split; [exact Hdef|]. split.
  - cbn [dimension]. rewrite !sum_fold_right, !map_app. cbn [map dimension].
    rewrite !fold_right_app. cbn [fold_right].
    rewrite sum_fold_right.
    f_equal.
    generalize (fold_right Z.add 0 (map dimension post)) as z. intros z.
    induction (map dimension es) as [|n l IH]; cbn [fold_right]; [lia|].
    rewrite <- IH. lia.
  - unfold __hash__. now rewrite Hdef.
Qed.

(** ** Dimension and instructions of the MFCC recipe *)

(** X9. The dimension of an MFCC recipe is the number of coefficients its
    instructions ask the engine for: the sum of [CepsNbCoeffs] over the
    instruction list. The first instruction is always [mfcc], with
    [CepsNbCoeffs = coefs + e] and [CepsIgnoreFirstCoeff] 0 if the energy
    is kept, 1 otherwise. *)
Theorem mfcc_dimension_is_the_coefficient_count :
  forall (self : attrs) (e : bool) (coefs : Z) (De DDe D DD : bool)
         (sr blockSize stepSize : Z),
    sample_rate_ self = Some sr ->
    int_mul sr (duration self) = Ok blockSize ->
    int_mul sr (step self) = Ok stepSize ->
    exists d ns,
      definition (YaafeMFCC self e coefs De DDe D DD) = Ok d
      /\ Forall2 (fun entry n => param "CepsNbCoeffs" (snd entry) = Some n) d ns
      /\ dimension (YaafeMFCC self e coefs De DDe D DD) = fold_right Z.add 0 ns
      /\ exists recipe,
          nth_error d 0 = Some ("mfcc", recipe)
          /\ param "CepsNbCoeffs" recipe = Some (coefs + of_bool e)
          /\ param "CepsIgnoreFirstCoeff" recipe = Some (if e then 0 else 1).
Proof.
  intros self e coefs De DDe D DD sr b s Hsr Hb Hs.
  rewrite (definition_mfcc self sr b s Hsr Hb Hs e coefs De DDe D DD).
  pose proof (mfcc_params (if e then 0 else 1) (coefs + of_bool e * 1) b s)
    as (P1 & P2 & _).
  pose proof (mfcc_d_params (if De then 0 else 1)
                (of_bool D * coefs + of_bool De * 1) b s) as (_ & Q2 & _).
  pose proof (mfcc_dd_params (if DDe then 0 else 1)
                (of_bool DD * coefs + of_bool DDe * 1) b s) as (_ & R2 & _).
  eexists.
  exists ([coefs + of_bool e * 1]
          ++ (if (De || D)%bool
              then [of_bool D * coefs + of_bool De * 1] else [])
          ++ (if (DDe || DD)%bool
              then [of_bool DD * coefs + of_bool DDe * 1] else [])).
  split; [reflexivity|]. split; [|split].
  - destruct (De || D)%bool, (DDe || DD)%bool; cbn [app];
      repeat (constructor; [cbn [snd]; assumption|]); constructor.
  - cbn [dimension]. cbv zeta.
    destruct e, De, D, DDe, DD; cbn [orb app fold_right of_bool]; lia.
  - cbn [app nth_error]. eexists. split; [reflexivity|].
    replace (coefs + of_bool e) with (coefs + of_bool e * 1) by lia.
    split; assumption.
Qed.

Lemma mfcc_dimension_is_the_coefficient_count_witness :
  exists d ns,
    definition
      (YaafeMFCC (set_sample_rate_ (attrs_of Examples.mfcc) 16000)
         true 11 false true true true) = Ok d
    /\ Forall2 (fun entry n => param "CepsNbCoeffs" (snd entry) = Some n) d ns
    /\ dimension
         (YaafeMFCC (set_sample_rate_ (attrs_of Examples.mfcc) 16000)
            true 11 false true true true) = fold_right Z.add 0 ns.
Proof.
  destruct (mfcc_dimension_is_the_coefficient_count
              (set_sample_rate_ (attrs_of Examples.mfcc) 16000)
              true 11 false true true true 16000 400 160
              eq_refl eq_refl eq_refl) as (d & ns & H1 & H2 & H3 & _).
  exists d, ns. repeat split; assumption.
Defined.

(** ** Mono signals *)

(** X10. On a flat (mono) signal, the selectors 1 (the default) and 0 both
    hand the samples to the engine unchanged, and every other selector
    raises [IndexError]. *)
Theorem mono_signal_selection :
  forall (samples : list float) (it : item),
    select_channel (Array1 samples) it =
      if ((channel_of it =? 0) || (channel_of it =? 1))%bool
      then Ok samples
      else Raise IndexError.
Proof.
  intros samples it. unfold select_channel, as_2d, column.
  assert (Hid : forall j, j = 0%nat ->
            map (fun r : list float => nth j r 0%float)
                (map (fun x => [x]) samples) = samples).
  { intros j ->. rewrite map_map. cbn [nth]. apply map_id. }
  change (Z.of_nat 1) with 1.
  destruct (Z.eqb_spec (channel_of it) 0) as [H0|H0]; cbn [orb].
  - rewrite H0. cbn. now rewrite Hid.
  - destruct (Z.eqb_spec (channel_of it) 1) as [H1|H1].
    + rewrite H1. cbn. now rewrite Hid.
    + assert (Hout : ((channel_of it - 1 <? - (1))
                      || (1 <=? channel_of it - 1))%bool = true).
      { apply orb_true_iff.
        destruct (Z.ltb_spec (channel_of it - 1) (- (1))); [now left|].
        right. apply Z.leb_le. lia. }
      rewrite Hout. reflexivity.
Qed.

(** ** A complete ZCR extraction *)

Lemma zcr_call_with_recipe (W : collaborators) (self : attrs) (it : item)
  (path : string) (y : ndarray) (sr : Z) (y1 : list float) (block : matrix)
  (recipe : string) :
  wav it = Some path ->
  sndio_read W path = ReadOk y sr ->
  (forall a, sample_rate_ a = Some sr -> duration a = duration self ->
             step a = step self ->
             definition (YaafeZCR a) = Ok [("zcr", recipe)]) ->
  select_channel y it = Ok y1 ->
  let line := "zcr: " +++ recipe in
  let flow :=
    if sample_rate_changed self sr then Some (sr, [line]) else engine_ self in
  (sample_rate_changed self sr = true -> addFeature W sr [] line = true) ->
  processAudio W flow y1 "zcr" = Some block ->
  __call__ W (YaafeZCR self) it =
    (YaafeZCR (mkAttrs (duration self) (step self) (sliding_window_ self)
                 flow (Some sr)),
     (if any_isnan block
      then [nan_message (get_unique_identifier W it)]
      else []),
     Ok (mkSlidingWindowFeature block (sliding_window_ self))).
Proof.
  destruct self as [d s w eng rate].
  cbv zeta. cbn [duration step sliding_window_ engine_].
  intros Hwav Hread Hdef Hsel Hadd Hproc.
  assert (Hline : "zcr" +++ ": " +++ recipe = "zcr: " +++ recipe)
    by reflexivity.
  unfold __call__, features_data, update_data_flow.
  rewrite Hwav, Hread. cbn [attrs_of].
  destruct (sample_rate_changed _ sr) eqn:Hch.
  - unfold set_sample_rate_, set_engine_.
    cbn [with_attrs attrs_of duration step sliding_window_ engine_ sample_rate_].
    match goal with |- context [definition (YaafeZCR ?a)] =>
      rewrite (Hdef a eq_refl eq_refl eq_refl) end.
    cbn [add_features app]. rewrite Hline, (Hadd eq_refl).
    cbn [attrs_of with_attrs duration step sliding_window_
         engine_ sample_rate_ bind].
    rewrite Hsel. cbn [bind].
    match goal with |- context [definition (YaafeZCR ?a)] =>
      rewrite (Hdef a eq_refl eq_refl eq_refl) end.
    cbn [bind map fst lookup_all].
    match goal with |- context [processAudio ?w ?f ?u ?n] =>
      replace (processAudio w f u n) with (Some block)
        by (symmetry; exact Hproc) end.
    cbn [bind hstack attrs_of sliding_window_]. reflexivity.
  - unfold sample_rate_changed in Hch. cbn [sample_rate_] in Hch.
    destruct rate as [sr0|]; [|discriminate].
    apply negb_false_iff, Z.eqb_eq in Hch. subst sr0.
    cbn [bind]. rewrite Hsel. cbn [bind].
    match goal with |- context [definition (YaafeZCR ?a)] =>
      rewrite (Hdef a eq_refl eq_refl eq_refl) end.
    cbn [bind map fst lookup_all attrs_of engine_].
    match goal with |- context [processAudio ?w ?f ?u ?n] =>
      replace (processAudio w f u n) with (Some block)
        by (symmetry; exact Hproc) end.
    cbn [bind hstack attrs_of sliding_window_]. reflexivity.
Qed.

(** X11. A ZCR extraction that meets no error: when the file is read, the
    two sizes are computed, the channel exists and (if the sample rate is
    new) the plan accepts the one line [zcr: ZCR blockSize=.. stepSize=..],
    the engine is loaded with exactly that line (or kept, at an unchanged
    sample rate), and the call returns the engine's [zcr] block as it is,
    timed by the sliding window of the instance, with the NaN warning if
    and only if the block holds a NaN. *)
Theorem zcr_returns_the_engine_block :
  forall (W : collaborators) (self : attrs) (it : item) (path : string)
         (y : ndarray) (sr blockSize stepSize : Z) (y1 : list float)
         (block : matrix),
    wav it = Some path ->
    sndio_read W path = ReadOk y sr ->
    int_mul sr (duration self) = Ok blockSize ->
    int_mul sr (step self) = Ok stepSize ->
    select_channel y it = Ok y1 ->
    let line :=
      "zcr: " +++ percent "ZCR blockSize=%d stepSize=%d" [blockSize; stepSize] in
    let flow :=
      if sample_rate_changed self sr then Some (sr, [line]) else engine_ self in
    (sample_rate_changed self sr = true -> addFeature W sr [] line = true) ->
    processAudio W flow y1 "zcr" = Some block ->
    __call__ W (YaafeZCR self) it =
      (YaafeZCR (mkAttrs (duration self) (step self) (sliding_window_ self)
                   flow (Some sr)),
       (if any_isnan block
        then [nan_message (get_unique_identifier W it)]
        else []),
       Ok (mkSlidingWindowFeature block (sliding_window_ self))).
Proof.
  intros W self it path y sr b st y1 block Hwav Hread Hb Hs Hsel.
  apply (zcr_call_with_recipe W self it path y sr y1 block
           (percent "ZCR blockSize=%d stepSize=%d" [b; st]) Hwav Hread);
    [|exact Hsel].
  intros a Ha Hd Hst. apply definition_zcr with (sr := sr).
  - exact Ha.
  - now rewrite Hd.
  - now rewrite Hst.
Qed.

Lemma zcr_returns_the_engine_block_witness :
  __call__ (Examples.echo_world Examples.stereo) Examples.zcr
    (Examples.file1 (Some 1))
  = (YaafeZCR
       (mkAttrs 0.025%float 0.010%float (sliding_window_ (attrs_of Examples.zcr))
          (Some (16000, ["zcr: ZCR blockSize=400 stepSize=160"])) (Some 16000)),
     [],
     Ok (mkSlidingWindowFeature [[1%float]; [3%float]]
           (sliding_window_ (attrs_of Examples.zcr)))).
Proof.
  exact (zcr_returns_the_engine_block (Examples.echo_world Examples.stereo)
           (attrs_of Examples.zcr) (Examples.file1 (Some 1)) "file1.wav"
           Examples.stereo 16000 400 160 [1%float; 3%float]
           [[1%float]; [3%float]]
           eq_refl eq_refl eq_refl eq_refl eq_refl (fun _ => eq_refl) eq_refl).
Defined.

(** ** Frames and receptive fields of the debugging model *)

Section Frames.

Variable sp : Debug.Spectrogram.

Lemma num_frames_value (n : Z) :
  Debug.hop_length sp <> 0 ->
  Debug.num_frames sp n =
    Ok (1 + (n - Debug.receptive_field_size sp 1) / Debug.hop_length sp).
Proof.
  intros Hhop. apply Z.eqb_neq in Hhop.
  unfold Debug.num_frames, Debug.receptive_field_size, floordiv.
  rewrite Hhop. destruct (Debug.center sp); cbn [bind]; do 3 f_equal; lia.
Qed.

Lemma receptive_field_size_value (k : Z) :
  Debug.receptive_field_size sp k =
    (k - 1) * Debug.hop_length sp + Debug.receptive_field_size sp 1.
Proof.
  unfold Debug.receptive_field_size. destruct (Debug.center sp); lia.
Qed.

End Frames.

(** X12. Round trip: for a hop length other than 0, a signal whose length
    is the receptive field size of [k] frames has exactly [k] frames,
    centered or not. *)
Theorem num_frames_of_receptive_field_size :
  forall (sp : Debug.Spectrogram) (k : Z),
    Debug.hop_length sp <> 0 ->
    Debug.num_frames sp (Debug.receptive_field_size sp k) = Ok k.
Proof.
  intros sp k Hhop.
  rewrite (num_frames_value sp _ Hhop), (receptive_field_size_value sp k).
  replace ((k - 1) * Debug.hop_length sp + Debug.receptive_field_size sp 1
           - Debug.receptive_field_size sp 1)
    with ((k - 1) * Debug.hop_length sp) by lia.
  rewrite Z.div_mul by assumption. f_equal. lia.
Qed.

Lemma num_frames_of_receptive_field_size_witness :
  Debug.num_frames (Debug.mkSpectrogram 400 400 200 false)
    (Debug.receptive_field_size (Debug.mkSpectrogram 400 400 200 false) 7)
  = Ok 7.
Proof.
  apply (num_frames_of_receptive_field_size
           (Debug.mkSpectrogram 400 400 200 false) 7).
  discriminate.
Defined.

(** X13. The other way round the two functions are inverse only up to the
    hop: for a positive hop length, the number of frames [k] of a signal
    of [n] samples is the one whose receptive field fits in the signal
    while that of [k + 1] frames does not. *)
Theorem receptive_field_size_of_num_frames :
  forall (sp : Debug.Spectrogram) (num_samples : Z),
    0 < Debug.hop_length sp ->
    exists k,
      Debug.num_frames sp num_samples = Ok k
      /\ Debug.receptive_field_size sp k <= num_samples
         < Debug.receptive_field_size sp (k + 1).
Proof.
  intros sp n Hhop.
  rewrite (num_frames_value sp n) by lia.
  set (r := Debug.receptive_field_size sp 1).
  set (k := 1 + (n - r) / Debug.hop_length sp).
  exists k. split; [reflexivity|].
  rewrite (receptive_field_size_value sp k),
          (receptive_field_size_value sp (k + 1)).
  fold r. subst k.
  pose proof (Z.mul_div_le (n - r) _ Hhop).
  pose proof (Z.mul_succ_div_gt (n - r) _ Hhop).
  nia.
Qed.

Lemma receptive_field_size_of_num_frames_witness :
  exists k,
    Debug.num_frames (Debug.mkSpectrogram 400 400 200 true) 16001 = Ok k
    /\ Debug.receptive_field_size (Debug.mkSpectrogram 400 400 200 true) k
       <= 16001
       < Debug.receptive_field_size (Debug.mkSpectrogram 400 400 200 true) (k + 1).
Proof.
  apply (receptive_field_size_of_num_frames
           (Debug.mkSpectrogram 400 400 200 true) 16001).
  reflexivity.
Defined.

(** X14. For a positive hop length [num_frames] never raises and never
    decreases when the signal gets longer; it is at least 1 exactly when
    the signal is at least as long as the receptive field of one frame (0
    samples when centered, [n_fft] otherwise): a shorter signal gets a
    frame count of 0 or less, not an error. *)
Theorem num_frames_monotone :
  forall (sp : Debug.Spectrogram) (n m : Z),
    0 < Debug.hop_length sp ->
    n <= m ->
    exists kn km,
      Debug.num_frames sp n = Ok kn
      /\ Debug.num_frames sp m = Ok km
      /\ kn <= km
      /\ (1 <= kn <-> Debug.receptive_field_size sp 1 <= n).
Proof.
  intros sp n m Hhop Hnm.
  rewrite (num_frames_value sp n), (num_frames_value sp m) by lia.
  do 2 eexists. split; [reflexivity|]. split; [reflexivity|].
  set (r := Debug.receptive_field_size sp 1). split.
  - pose proof (Z.div_le_mono (n - r) (m - r) _ Hhop). lia.
  - split; intros H.
    + assert (0 <= (n - r) / Debug.hop_length sp) by lia.
      pose proof (Z.mul_div_le (n - r) _ Hhop). nia.
    + assert (0 <= (n - r) / Debug.hop_length sp)
        by (apply Z.div_pos; lia).
      lia.
Qed.

Lemma num_frames_monotone_witness :
  exists kn km,
    Debug.num_frames (Debug.mkSpectrogram 400 400 200 false) 399 = Ok kn
    /\ Debug.num_frames (Debug.mkSpectrogram 400 400 200 false) 400 = Ok km
    /\ kn <= km
    /\ (1 <= kn <->
        Debug.receptive_field_size (Debug.mkSpectrogram 400 400 200 false) 1
        <= 399).
Proof.
  apply (num_frames_monotone (Debug.mkSpectrogram 400 400 200 false) 399 400).
  - reflexivity.
  - discriminate.
Defined.
